(** * AutoMove: a Modmail plugin that files thread channels by last speaker

    A shallow embedding of [auto_move/auto_move.py] (class [AutoMove]) and
    the properties of its reply handler, its relocator, its history scan and
    its configuration defaults.

    The cog talks to collaborators it does not own: the plugin's database
    partition, the bot (global configuration and channel cache) and the
    Discord channel of the thread a reply belongs to.  They are gathered in
    one [world] record, and every coroutine of the cog is a function in a
    state and exception monad over it.  Reads of the database, of the bot's
    configuration and of the channel history succeed, and a message sent
    with [ctx.send] is delivered; the request to move a channel is answered
    by Discord, which may refuse it. *)

From stdpp Require Import base option list strings pretty gmap.
From Stdlib Require Import ZArith Ascii String Lia.

Local Open Scope string_scope.
Local Open Scope list_scope.
Local Open Scope Z_scope.

(** ** Python values and exceptions *)

(** The values the cog stores and reads back: [None], an [int], or a [str]. *)
Inductive pyval : Type :=
  | PyNone
  | PyInt (n : Z)
  | PyStr (s : string).

#[global] Instance pyval_eq_dec : EqDecision pyval.
Proof. solve_decision. Defined.

(** The exceptions that occur.  [HTTPException] stands for
    [discord.HTTPException] and its subclasses ([Forbidden], [NotFound], ...)
    and carries its text; [CancelledError] derives from [BaseException] only,
    all the others derive from [Exception]. *)
Inductive exn : Type :=
  | TypeError
  | ValueError
  | AttributeError
  | HTTPException (text : string)
  | CancelledError.

#[global] Instance exn_eq_dec : EqDecision exn.
Proof. solve_decision. Defined.

(** [isinstance(e, Exception)] *)
Definition is_Exception (e : exn) : bool :=
  match e with
  | CancelledError => false
  | _ => true
  end.

(** [str(e)] *)
Definition exn_str (e : exn) : string :=
  match e with
  | HTTPException text => text
  | _ => EmptyString
  end.

Inductive result (A : Type) : Type :=
  | Return (a : A)
  | Raise (e : exn).
Arguments Return {A} a.
Arguments Raise {A} e.

(** Truth value of an object in [if x:] and [x and y]. *)
Definition py_truthy (v : pyval) : bool :=
  match v with
  | PyNone => false
  | PyInt n => negb (n =? 0)
  | PyStr s => negb (String.eqb s EmptyString)
  end.

(** [x is None] *)
Definition py_is_none (v : pyval) : bool :=
  match v with
  | PyNone => true
  | _ => false
  end.

(** [x == y] on the values above: an [int] never equals [None] or a [str]. *)
Definition py_eq (x y : pyval) : bool := bool_decide (x = y).

(** *** The builtin [int] on strings

    Decimal syntax of [int(s)] for an ASCII [s]: surrounding whitespace is
    dropped, one sign is allowed, and digits may be grouped by single
    underscores. *)
Module PyInt.

Definition is_space (a : ascii) : bool :=
  let n := N_of_ascii a in
  ((9 <=? n) && (n <=? 13) || (n =? 32))%N.

Definition digit (a : ascii) : option Z :=
  let n := Z.of_N (N_of_ascii a) in
  if (48 <=? n) && (n <=? 57) then Some (n - 48) else None.

Fixpoint lstrip (s : list ascii) : list ascii :=
  match s with
  | a :: s' => if is_space a then lstrip s' else s
  | [] => []
  end.

Definition strip (s : list ascii) : list ascii :=
  rev (lstrip (rev (lstrip s))).

(** [after_digit] tells whether the previous character was a digit: an
    underscore is accepted only between two digits. *)
Fixpoint digits (acc : Z) (after_digit : bool) (s : list ascii) : option Z :=
  match s with
  | [] => if after_digit then Some acc else None
  | a :: s' =>
      if Ascii.eqb a "_"%char then
        if after_digit then digits acc false s' else None
      else
        match digit a with
        | Some d => digits (10 * acc + d) true s'
        | None => None
        end
  end.

Definition signed (s : list ascii) : option Z :=
  match s with
  | a :: s' =>
      if Ascii.eqb a "-"%char then Z.opp <$> digits 0 false s'
      else if Ascii.eqb a "+"%char then digits 0 false s'
      else digits 0 false s
  | [] => None
  end.

Definition of_string (s : string) : option Z :=
  signed (strip (list_ascii_of_string s)).

End PyInt.

(** [int(x)] *)
Definition py_int (v : pyval) : result Z :=
  match v with
  | PyNone => Raise TypeError
  | PyInt n => Return n
  | PyStr s =>
      match PyInt.of_string s with
      | Some n => Return n
      | None => Raise ValueError
      end
  end.

(** [str(n)] for an [int], also what [{n}] prints in an f-string.  The cap
    Python puts on the number of digits of such a conversion (4300 by
    default) is not modelled. *)
Definition py_str (n : Z) : string := pretty n.

(** ** The collaborators *)

Module discord.

(** [discord.Colour] *)
Record Colour : Type := { value : Z }.

(** [discord.Embed]; [color] is [None] for an embed without a colour. *)
Record Embed : Type := { color : option Colour }.

(** [discord.Message] *)
Record Message : Type := { embeds : list Embed }.

(** The channel of a thread: the category it is filed under, and its
    messages, newest first. *)
Record TextChannel : Type := {
  category_id : option Z;
  messages : list Message;
}.

(** [channel.history()] is called without arguments and yields at most
    [limit = 100] messages, newest first. *)
Definition history_limit : nat := 100.

Definition history (c : TextChannel) : list Message :=
  take history_limit (messages c).

End discord.

(** Requests the cog sends to Discord. *)
Inductive request : Type :=
  | GetHistory
  | EditCategory (target : Z).

#[global] Instance request_eq_dec : EqDecision request.
Proof. solve_decision. Defined.

Record world : Type := {
  (** the plugin's partition, [_id ↦ value] *)
  db : gmap string pyval;
  (** [bot.config] *)
  config : gmap string pyval;
  (** the ids [bot.get_channel] resolves *)
  channels : gset Z;
  (** [thread.channel] *)
  channel : discord.TextChannel;
  (** how Discord answers [channel.edit(category=c)]: [None] when it
      accepts the move, the exception it raises otherwise *)
  host_edit : Z → option exn;
  (** the requests sent to Discord so far, oldest first *)
  requests : list request;
  (** the lines printed so far, oldest first *)
  stdout : list string;
}.

Definition set_db (f : gmap string pyval → gmap string pyval) (w : world) : world :=
  {| db := f (db w); config := config w; channels := channels w;
     channel := channel w; host_edit := host_edit w;
     requests := requests w; stdout := stdout w |}.

Definition set_channel (c : discord.TextChannel) (w : world) : world :=
  {| db := db w; config := config w; channels := channels w;
     channel := c; host_edit := host_edit w;
     requests := requests w; stdout := stdout w |}.

Definition send (r : request) (w : world) : world :=
  {| db := db w; config := config w; channels := channels w;
     channel := channel w; host_edit := host_edit w;
     requests := requests w ++ [r]; stdout := stdout w |}.

Definition put_line (s : string) (w : world) : world :=
  {| db := db w; config := config w; channels := channels w;
     channel := channel w; host_edit := host_edit w;
     requests := requests w; stdout := stdout w ++ [s] |}.

(** The category moves requested so far. *)
Definition moves (w : world) : list Z :=
  omap (λ r, match r with EditCategory c => Some c | GetHistory => None end)
       (requests w).

(** ** The monad of coroutines *)

Definition M (A : Type) : Type := world → result A * world.

#[global] Instance M_ret : MRet M := λ A a w, (Return a, w).

#[global] Instance M_bind : MBind M := λ A B f m w,
  match m w with
  | (Return a, w') => f a w'
  | (Raise e, w') => (Raise e, w')
  end.

Definition ret {A} (a : A) : M A := mret a.

Definition raise {A} (e : exn) : M A := λ w, (Raise e, w).

Definition lift {A} (r : result A) : M A := λ w, (r, w).

Definition gets {A} (f : world → A) : M A := λ w, (Return (f w), w).

Definition modify (f : world → world) : M unit := λ w, (Return (), f w).

(** [try: body / except Exception as e: handler e] *)
Definition try_except {A} (body : M A) (handler : exn → M A) : M A := λ w,
  match body w with
  | (Raise e, w') => if is_Exception e then handler e w' else (Raise e, w')
  | r => r
  end.

(** [for x in l: body x] *)
Fixpoint for_each {A} (l : list A) (body : A → M unit) : M unit :=
  match l with
  | [] => ret ()
  | x :: l' => body x;; for_each l' body
  end.

(** [print(s)] *)
Definition print (s : string) : M unit := modify (put_line s).

(** The invocation context of a command.  [in_thread] tells whether
    [bot.threads.find(channel=ctx.channel)] finds a thread, which is then the
    thread whose channel the world holds, so that [ctx.channel] is that
    channel; [sent] lists what [ctx.send] has delivered to the invoker,
    oldest first. *)
Record Context : Type := {
  in_thread : bool;
  sent : list string;
}.

(** A message that carries text and no embed. *)
Definition text_message : discord.Message := {| discord.embeds := [] |}.

(** A text message arrives in the thread's channel as its newest message. *)
Definition post_text (w : world) : world :=
  set_channel
    {| discord.category_id := discord.category_id (channel w);
       discord.messages := text_message :: discord.messages (channel w) |} w.

(** [await ctx.send(content)]: the text is posted into [ctx.channel], which
    is the thread's channel when the command was run there. *)
Definition ctx_send (ctx : Context) (content : string) : M Context :=
  (if in_thread ctx then modify post_text else ret ());;
  ret {| in_thread := in_thread ctx; sent := sent ctx ++ [content] |}.

(** [await asyncio.sleep(seconds)]: time is not part of the world. *)
Definition sleep (seconds : Z) : M unit := ret ().

(** ** The cog *)

Module AutoMove.

(** [config = await self.db.find_one({"_id": key})] followed by
    [config['value'] if config else None]: a key without a document reads
    as [None]. *)
Definition get_config (key : string) : M pyval :=
  config ← gets (λ w, db w !! key);
  ret (match config with
       | Some value => value
       | None => PyNone
       end).

(** [find_one_and_update({"_id": key}, {"$set": {"value": value}}, upsert=True)] *)
Definition set_config (key : string) (value : pyval) : M unit :=
  modify (set_db <[key := value]>).

(** [self.bot.config.get(key)] *)
Definition get_global_config (key : string) : M pyval :=
  gets (λ w, default PyNone (config w !! key)).

Definition default_keys : list (string * pyval) :=
  [ ("waiting_user_message_category_id", PyNone);
    ("waiting_staff_message_category_id", PyNone);
    ("closing_category_id", PyNone);
    ("recruitment_id", PyNone) ].

Definition ensure_config_keys : M unit :=
  for_each default_keys (λ '(key, default_value),
    current ← get_config key;
    if py_is_none current then set_config key default_value else ret ()).

(** [on_ready] *)
Definition on_ready : M unit := ensure_config_keys.

(** [self.bot.get_channel(category_id)]: the channel object, named by its
    id, or [None]. *)
Definition get_channel (category_id : Z) : M (option Z) :=
  gets (λ w, if decide (category_id ∈ channels w) then Some category_id else None).

(** [await channel.edit(category=target_category)] on the thread's channel:
    the request goes out, then Discord either accepts it or raises.  [edit]
    hands back the edited channel as a new object and leaves [channel] as
    it is: the cached [category_id] changes only when the gateway's update
    for the channel reaches the cache, which is no step of the cog. *)
Definition channel_edit (target_category : Z) : M unit :=
  modify (send (EditCategory target_category));;
  answer ← gets (λ w, host_edit w target_category);
  match answer with
  | Some e => raise e
  | None => ret ()
  end.

(** [move_channel(self, channel, category_id)], with [channel] the
    thread's channel. *)
Definition move_channel (category_id : pyval) : M unit :=
  category_id ← lift (py_int category_id);
  target_category ← get_channel category_id;
  current ← gets (λ w, discord.category_id (channel w));
  if bool_decide (is_Some target_category)
     && negb (bool_decide (current = Some category_id))
  then
    try_except
      (channel_edit category_id)
      (λ e, print ("Failed to move the channel: " +:+ exn_str e))
  else ret ().

(** The inner loop of [has_mod_replied], [for embed in message.embeds]:
    [Return true] when it reaches [return True], [Return false] when it
    runs to its end; [embed.color.value] raises on an embed whose [color]
    is [None]. *)
Fixpoint scan_embeds (mod_color : pyval) (embeds : list discord.Embed)
  : result bool :=
  match embeds with
  | [] => Return false
  | embed :: rest =>
      match discord.color embed with
      | None => Raise AttributeError
      | Some colour =>
          if py_eq (PyInt (discord.value colour)) mod_color
          then Return true
          else scan_embeds mod_color rest
      end
  end.

(** The outer loop, [async for message in thread.channel.history()]. *)
Fixpoint scan_messages (mod_color : pyval) (history : list discord.Message)
  : result bool :=
  match history with
  | [] => Return false
  | message :: rest =>
      match scan_embeds mod_color (discord.embeds message) with
      | Return true => Return true
      | Return false => scan_messages mod_color rest
      | Raise e => Raise e
      end
  end.

Definition has_mod_replied : M bool :=
  mod_color ← get_global_config "mod_color";
  modify (send GetHistory);;
  history ← gets (λ w, discord.history (channel w));
  lift (scan_messages mod_color history).

(** [on_thread_reply(self, thread, from_mod, message, anonymous, plain)];
    the [return] of the recruitment test is the first branch of the
    conditional. *)
Definition on_thread_reply (from_mod : bool) : M unit :=
  mod_has_replied ← has_mod_replied;
  recruitment_category_id ← get_config "recruitment_id";
  let category_id := PyNone in
  exempt ←
    (if py_truthy recruitment_category_id then
       current ← gets (λ w, discord.category_id (channel w));
       recruitment ← lift (py_int recruitment_category_id);
       ret (bool_decide (current = Some recruitment))
     else ret false);
  if exempt : bool then ret ()
  else
    category_id ←
      (if from_mod then get_config "waiting_user_message_category_id"
       else if mod_has_replied : bool
            then get_config "waiting_staff_message_category_id"
            else ret category_id);
    if py_truthy category_id then move_channel category_id else ret ().

(** [move_to_closing_category(self, ctx)], the command
    [movetoclosingcategory]. *)
Definition move_to_closing_category (ctx : Context) : M Context :=
  sleep 3;;
  let thread := in_thread ctx in
  if thread then
    category_id ← get_config "closing_category_id";
    if negb (py_is_none category_id) then
      move_channel category_id;;
      ret ctx
    else ctx_send ctx "The closing category ID is not configured."
  else ctx_send ctx "This command must be used in a thread channel.".

(** The four setter commands; [category_id] has been converted to an [int]
    by the command framework. *)
Definition set_waiting_user_message_category (ctx : Context) (category_id : Z)
  : M Context :=
  set_config "waiting_user_message_category_id" (PyStr (py_str category_id));;
  ctx_send ctx ("User message waiting category ID updated successfully: <#"
                +:+ py_str category_id +:+ ">.").

Definition set_waiting_staff_message_category (ctx : Context) (category_id : Z)
  : M Context :=
  set_config "waiting_staff_message_category_id" (PyStr (py_str category_id));;
  ctx_send ctx ("Staff message waiting category ID updated successfully: <#"
                +:+ py_str category_id +:+ ">.").

Definition set_closing_category (ctx : Context) (category_id : Z) : M Context :=
  set_config "closing_category_id" (PyStr (py_str category_id));;
  ctx_send ctx ("Closing category ID updated successfully: <#"
                +:+ py_str category_id +:+ ">.").

Definition set_recruitment_category (ctx : Context) (category_id : Z)
  : M Context :=
  set_config "recruitment_id" (PyStr (py_str category_id));;
  ctx_send ctx ("Recruitment category ID updated successfully: <#"
                +:+ py_str category_id +:+ ">.").

End AutoMove.

Import AutoMove.

(** ** Notions the properties are stated with *)

(** The world a coroutine leaves behind. *)
Definition exec {A} (m : M A) (w : world) : world := (m w).2.

(** The value [get_config key] reads in [w]. *)
Definition stored (key : string) (w : world) : pyval :=
  default PyNone (db w !! key).

(** The value [get_global_config "mod_color"] reads in [w]. *)
Definition mod_color_of (w : world) : pyval :=
  default PyNone (config w !! "mod_color").

(** The outcome of the two loops of [has_mod_replied] in [w]. *)
Definition scan (w : world) : result bool :=
  scan_messages (mod_color_of w) (discord.history (channel w)).

(** The gateway's update for a move of the channel to [n] reaching the
    cache: from then on the cached channel shows the new category.  The cog
    neither causes nor awaits it. *)
Definition channel_update (n : Z) (w : world) : world :=
  set_channel {| discord.category_id := Some n;
                 discord.messages := discord.messages (channel w) |} w.

(** The world after Discord refused a move of the channel to [n] with the
    exception [e], and [move_channel] printed it. *)
Definition refused (n : Z) (e : exn) (w : world) : world :=
  put_line ("Failed to move the channel: " +:+ exn_str e)
           (send (EditCategory n) w).

(** The channel is filed under the configured recruitment category: the test
    of line 128 succeeds. *)
Definition in_recruitment (w : world) : Prop :=
  py_truthy (stored "recruitment_id" w) = true ∧
  ∃ n, py_int (stored "recruitment_id" w) = Return n ∧
       discord.category_id (channel w) = Some n.

(** No recruitment category is configured, or the channel is filed
    elsewhere: the test of line 128 fails. *)
Definition outside_recruitment (w : world) : Prop :=
  py_truthy (stored "recruitment_id" w) = false ∨
  ∃ n, py_int (stored "recruitment_id" w) = Return n ∧
       discord.category_id (channel w) ≠ Some n.

(** The value of [category_id] after lines 127-135, for a sender and an
    outcome of the scan. *)
Definition selected (from_mod mod_has_replied : bool) (w : world) : pyval :=
  if from_mod then stored "waiting_user_message_category_id" w
  else if mod_has_replied then stored "waiting_staff_message_category_id" w
  else PyNone.

(** Lines 137-138: [if category_id: await self.move_channel(...)]. *)
Definition move_if_set (category_id : pyval) : M unit :=
  if py_truthy category_id then move_channel category_id else ret ().

(** The staff marker: the embed carries the colour [mod_color]. *)
Definition staff_marked (mod_color : pyval) (embed : discord.Embed) : bool :=
  match discord.color embed with
  | Some colour => py_eq (PyInt (discord.value colour)) mod_color
  | None => false
  end.

Definition message_marked (mod_color : pyval) (m : discord.Message) : bool :=
  existsb (staff_marked mod_color) (discord.embeds m).

Definition has_colour (embed : discord.Embed) : bool :=
  bool_decide (is_Some (discord.color embed)).

(** The embeds in the order the two loops visit them. *)
Definition flatten (history : list discord.Message) : list discord.Embed :=
  history ≫= discord.embeds.

(** The embeds the loops look at before they find a staff-marked one: all
    of them when there is none. *)
Fixpoint before_match (mod_color : pyval) (embeds : list discord.Embed)
  : list discord.Embed :=
  match embeds with
  | [] => []
  | embed :: rest =>
      if staff_marked mod_color embed then []
      else embed :: before_match mod_color rest
  end.

Definition scanned (w : world) : list discord.Embed :=
  flatten (discord.history (channel w)).

(** One round of the loop of [ensure_config_keys], on the store. *)
Definition ensure_key (d : gmap string pyval) (kv : string * pyval)
  : gmap string pyval :=
  if py_is_none (default PyNone (d !! kv.1)) then <[kv.1 := kv.2]> d else d.

Definition ensure_db (d : gmap string pyval) : gmap string pyval :=
  foldl ensure_key d default_keys.

(** ** Sample deployments *)

(** A staff reply as Modmail posts it, in the colour [mod_color]. *)
Definition staff_embed : discord.Embed :=
  {| discord.color := Some {| discord.value := 7506394 |} |}.

(** A user message as Modmail posts it, in the recipient colour. *)
Definition user_embed : discord.Embed :=
  {| discord.color := Some {| discord.value := 15844367 |} |}.

(** An embed without a colour, such as the preview Discord attaches to a
    message that holds a link. *)
Definition link_preview : discord.Embed := {| discord.color := None |}.

Definition message_of (embed : discord.Embed) : discord.Message :=
  {| discord.embeds := [embed] |}.

(** All four categories configured, as the setter commands store them. *)
Definition sample_db : gmap string pyval :=
  <["waiting_user_message_category_id" := PyStr "111"]>
  (<["waiting_staff_message_category_id" := PyStr "222"]>
  (<["closing_category_id" := PyStr "333"]>
  (<["recruitment_id" := PyStr "900"]> ∅))).

(** Only the recruitment category configured. *)
Definition recruitment_only_db : gmap string pyval :=
  {[ "recruitment_id" := PyStr "900" ]}.

(** A thread channel filed under [category] whose messages are [messages],
    on a server where the categories 111, 222, 333 and 900 exist, with the
    configuration [store], and where Discord answers a move with [answer]. *)
Definition ticket (store : gmap string pyval) (category : option Z)
    (messages : list discord.Message) (answer : option exn) : world :=
  {| db := store;
     config := {[ "mod_color" := PyInt 7506394 ]};
     channels := {[ 111; 222; 333; 900 ]};
     channel := {| discord.category_id := category;
                   discord.messages := messages |};
     host_edit := λ _, answer;
     requests := [];
     stdout := [] |}.

(** The same server seen with its text channel 555 beside the four
    categories: Discord accepts a move under a category and refuses one
    under the text channel. *)
Definition ticket_and_text_channel (store : gmap string pyval)
    (category : option Z) (messages : list discord.Message) : world :=
  {| db := store;
     config := {[ "mod_color" := PyInt 7506394 ]};
     channels := {[ 111; 222; 333; 900; 555 ]};
     channel := {| discord.category_id := category;
                   discord.messages := messages |};
     host_edit := λ c, if decide (c = 555)
                       then Some (HTTPException "400 Bad Request") else None;
     requests := [];
     stdout := [] |}.

(** ** Commands *)

(** The world after a message was sent to the invoker of [ctx]: it is in
    the thread's channel when the command was run there. *)
Definition delivered (ctx : Context) (w : world) : world :=
  if in_thread ctx then post_text w else w.

(** The context after [content] was sent to the invoker. *)
Definition told (content : string) (ctx : Context) : Context :=
  {| in_thread := in_thread ctx; sent := sent ctx ++ [content] |}.

(** The four setter commands with the key each one writes and the words
    its confirmation starts with. *)
Definition setter_commands
  : list (string * string * (Context → Z → M Context)) :=
  [ ("waiting_user_message_category_id", "User message waiting category",
     set_waiting_user_message_category);
    ("waiting_staff_message_category_id", "Staff message waiting category",
     set_waiting_staff_message_category);
    ("closing_category_id", "Closing category", set_closing_category);
    ("recruitment_id", "Recruitment category", set_recruitment_category) ].

(** A moderator who runs a command in the thread's channel, and one who
    runs it elsewhere. *)
Definition in_ticket : Context := {| in_thread := true; sent := [] |}.

Definition elsewhere : Context := {| in_thread := false; sent := [] |}.

(** ** Running a coroutine *)

(** Unfolds the monad's plumbing, leaving the cog's own calls in place. *)
Ltac run :=
  cbv [mbind M_bind mret M_ret ret lift gets modify raise print try_except];
  cbn beta iota.

Lemma get_config_run key w : get_config key w = (Return (stored key w), w).
Proof. unfold get_config, stored. run. by destruct (db w !! key). Qed.

Lemma stored_send key r w : stored key (send r w) = stored key w.
Proof. reflexivity. Qed.

Lemma has_mod_replied_run w :
  has_mod_replied w = (scan w, send GetHistory w).
Proof. reflexivity. Qed.

Lemma moves_send_history w : moves (send GetHistory w) = moves w.
Proof. unfold moves, send. cbn. rewrite omap_app. cbn. by rewrite app_nil_r. Qed.

(** The ways [move_channel] can go: its argument is no integer; the target
    does not resolve or is the current category; the edit is requested. *)
Lemma move_channel_bad_argument v e w :
  py_int v = Raise e → move_channel v w = (Raise e, w).
Proof. intros Hint. unfold move_channel. run. by rewrite Hint. Qed.

Lemma move_channel_skip v n w :
  py_int v = Return n →
  n ∉ channels w ∨ discord.category_id (channel w) = Some n →
  move_channel v w = (Return (), w).
Proof.
  intros Hint Hskip. unfold move_channel, get_channel. run. rewrite Hint.
  destruct Hskip as [Hout | Hsame].
  - by rewrite decide_False.
  - rewrite (bool_decide_eq_true_2 _ Hsame). cbn. by rewrite andb_false_r.
Qed.

Lemma move_channel_edit v n w :
  py_int v = Return n →
  n ∈ channels w →
  discord.category_id (channel w) ≠ Some n →
  move_channel v w =
  match host_edit w n with
  | None => (Return (), send (EditCategory n) w)
  | Some e =>
      if is_Exception e then (Return (), refused n e w)
      else (Raise e, send (EditCategory n) w)
  end.
Proof.
  intros Hint Hin Hne. unfold move_channel, get_channel, channel_edit. run.
  rewrite Hint, decide_True by done.
  rewrite (bool_decide_eq_false_2 _ Hne). cbn.
  destruct (host_edit w n) as [e|]; [|done].
  by destruct (is_Exception e).
Qed.

Lemma move_channel_requests v w :
  ∃ rest, requests (exec (move_channel v) w) = requests w ++ rest.
Proof.
  unfold exec. destruct (py_int v) as [n|e] eqn:Hint.
  - destruct (decide (n ∈ channels w)) as [Hin|Hout].
    + destruct (decide (discord.category_id (channel w) = Some n)) as [Heq|Hne].
      * rewrite (move_channel_skip v n w) by auto.
        exists []. cbn. by rewrite app_nil_r.
      * rewrite (move_channel_edit v n w) by done.
        exists [EditCategory n].
        destruct (host_edit w n) as [e|]; [by destruct (is_Exception e)|done].
    + rewrite (move_channel_skip v n w) by auto.
      exists []. cbn. by rewrite app_nil_r.
  - rewrite (move_channel_bad_argument v e w) by done.
    exists []. cbn. by rewrite app_nil_r.
Qed.

Lemma move_if_set_unset v w :
  py_truthy v = false → move_if_set v w = (Return (), w).
Proof. intros Hv. unfold move_if_set. by rewrite Hv. Qed.

Lemma move_if_set_set v w :
  py_truthy v = true → move_if_set v w = move_channel v w.
Proof. intros Hv. unfold move_if_set. by rewrite Hv. Qed.

Lemma move_if_set_requests v w :
  ∃ rest, requests (exec (move_if_set v) w) = requests w ++ rest.
Proof.
  unfold move_if_set. destruct (py_truthy v); [apply move_channel_requests|].
  exists []. cbn. by rewrite app_nil_r.
Qed.

(** ** The history scan as a function of the embeds *)

Lemma scan_embeds_app mc l1 l2 :
  scan_embeds mc (l1 ++ l2) =
  match scan_embeds mc l1 with
  | Return false => scan_embeds mc l2
  | r => r
  end.
Proof.
  induction l1 as [|e l1 IH]; cbn; [done|].
  destruct (discord.color e); [|done].
  by destruct (py_eq _ _).
Qed.

Lemma scan_messages_flatten mc history :
  scan_messages mc history = scan_embeds mc (flatten history).
Proof.
  induction history as [|m history IH]; [reflexivity|].
  change (flatten (m :: history)) with (discord.embeds m ++ flatten history).
  cbn. rewrite scan_embeds_app, IH.
  by destruct (scan_embeds mc (discord.embeds m)) as [[]|].
Qed.

Lemma existsb_flatten mc history :
  existsb (message_marked mc) history = existsb (staff_marked mc) (flatten history).
Proof.
  induction history as [|m history IH]; [reflexivity|].
  change (flatten (m :: history)) with (discord.embeds m ++ flatten history).
  cbn. by rewrite existsb_app, IH.
Qed.

(** The loops in one equation: they raise when an embed without colour
    comes before every staff-marked one, and otherwise tell whether there is
    a staff-marked one. *)
Lemma scan_embeds_spec mc l :
  scan_embeds mc l =
  if forallb has_colour (before_match mc l)
  then Return (existsb (staff_marked mc) l)
  else Raise AttributeError.
Proof.
  induction l as [|e l IH]; [done|].
  cbn [scan_embeds before_match existsb].
  destruct e as [[c|]]; unfold staff_marked at 1 2; cbn [discord.color].
  - destruct (py_eq (PyInt (discord.value c)) mc); [done|].
    cbn [forallb orb]. unfold has_colour at 1. cbn [discord.color].
    rewrite bool_decide_eq_true_2 by eauto. exact IH.
  - cbn [forallb]. unfold has_colour at 1. cbn [discord.color].
    rewrite bool_decide_eq_false_2; [done|]. by intros [? ?].
Qed.

Lemma scan_spec w :
  scan w =
  if forallb has_colour (before_match (mod_color_of w) (scanned w))
  then Return (existsb (message_marked (mod_color_of w))
                       (discord.history (channel w)))
  else Raise AttributeError.
Proof.
  unfold scan, scanned.
  by rewrite scan_messages_flatten, scan_embeds_spec, existsb_flatten.
Qed.

Lemma forallb_has_colour l :
  forallb has_colour l = true ↔ Forall (λ e, is_Some (discord.color e)) l.
Proof.
  induction l as [|e l IH]; cbn.
  - split; [constructor|done].
  - rewrite andb_true_iff, Forall_cons, IH. unfold has_colour.
    by rewrite bool_decide_eq_true.
Qed.

Lemma forallb_has_colour_false l :
  forallb has_colour l = false ↔ Exists (λ e, discord.color e = None) l.
Proof.
  induction l as [|e l IH]; cbn.
  - split; [done|by intros ?%Exists_nil].
  - rewrite andb_false_iff, Exists_cons, IH. unfold has_colour.
    rewrite bool_decide_eq_false, <-eq_None_not_Some. done.
Qed.

(** Within its domain the scan is the presence check of the contract. *)
Lemma has_mod_replied_on_coloured w :
  Forall (λ e, is_Some (discord.color e))
         (before_match (mod_color_of w) (scanned w)) →
  has_mod_replied w =
  (Return (existsb (message_marked (mod_color_of w))
                   (discord.history (channel w))),
   send GetHistory w).
Proof.
  intros Hcol%forallb_has_colour.
  by rewrite has_mod_replied_run, scan_spec, Hcol.
Qed.

(** ** The reply handler, case by case *)

Lemma on_thread_reply_scan_raises from_mod w e :
  scan w = Raise e →
  on_thread_reply from_mod w = (Raise e, send GetHistory w).
Proof.
  intros Hscan. unfold on_thread_reply. run.
  by rewrite has_mod_replied_run, Hscan.
Qed.

(** The handler on a history that holds an embed without colour before
    every staff-marked one, for either sender and any configuration. *)
Lemma on_thread_reply_behind_colourless_embed from_mod w :
  Exists (λ e, discord.color e = None)
         (before_match (mod_color_of w) (scanned w)) →
  on_thread_reply from_mod w = (Raise AttributeError, send GetHistory w).
Proof.
  intros Hnone%forallb_has_colour_false.
  apply on_thread_reply_scan_raises. by rewrite scan_spec, Hnone.
Qed.

Lemma on_thread_reply_recruitment from_mod w b :
  scan w = Return b →
  in_recruitment w →
  on_thread_reply from_mod w = (Return (), send GetHistory w).
Proof.
  intros Hscan (Hset & n & Hint & Hcat). unfold on_thread_reply. run.
  rewrite has_mod_replied_run, Hscan, get_config_run, stored_send, Hset, Hint.
  cbn. by rewrite (bool_decide_eq_true_2 _ Hcat).
Qed.

Lemma on_thread_reply_elsewhere from_mod w b :
  scan w = Return b →
  outside_recruitment w →
  on_thread_reply from_mod w
  = move_if_set (selected from_mod b w) (send GetHistory w).
Proof.
  intros Hscan Hout. unfold on_thread_reply, move_if_set, selected. run.
  rewrite has_mod_replied_run, Hscan, get_config_run, stored_send.
  assert (∀ key, get_config key (send GetHistory w)
                 = (Return (stored key w), send GetHistory w)) as Hget.
  { intros key. by rewrite get_config_run. }
  destruct Hout as [Hunset | (n & Hint & Hne)].
  - rewrite Hunset. destruct from_mod, b; by rewrite ?Hget.
  - rewrite Hint. destruct (py_truthy (stored "recruitment_id" w)); cbn;
      rewrite ?(bool_decide_eq_false_2 _ Hne);
      destruct from_mod, b; by rewrite ?Hget.
Qed.

Lemma on_thread_reply_requests from_mod w :
  ∃ rest, requests (exec (on_thread_reply from_mod) w)
          = requests w ++ GetHistory :: rest.
Proof.
  assert (∀ r : result (), ∃ rest,
            requests (exec (λ w', (r, w')) (send GetHistory w))
            = requests w ++ GetHistory :: rest) as Hstop.
  { intros r. by exists []. }
  assert (∀ v, ∃ rest,
            requests (exec (move_if_set v) (send GetHistory w))
            = requests w ++ GetHistory :: rest) as Hmove.
  { intros v. destruct (move_if_set_requests v (send GetHistory w)) as [rest ->].
    exists rest. cbn. by rewrite <-app_assoc. }
  unfold exec in *. unfold on_thread_reply. run.
  rewrite has_mod_replied_run.
  destruct (scan w) as [b|e]; [|apply (Hstop (Raise e))].
  rewrite get_config_run, stored_send.
  destruct (py_truthy (stored "recruitment_id" w)).
  - destruct (py_int (stored "recruitment_id" w)) as [n|e];
      [|apply (Hstop (Raise e))].
    cbn. destruct (bool_decide _); [apply (Hstop (Return ()))|].
    destruct from_mod, b; rewrite ?get_config_run, ?stored_send;
      first [apply Hmove | apply (Hstop (Return ()))].
  - destruct from_mod, b; rewrite ?get_config_run, ?stored_send;
      first [apply Hmove | apply (Hstop (Return ()))].
Qed.

(** ** The store under [ensure_config_keys] *)

Lemma ensure_keys_run kvs w :
  for_each kvs (λ '(key, default_value),
      current ← get_config key;
      if py_is_none current then set_config key default_value else ret ()) w
  = (Return (), set_db (λ d, foldl ensure_key d kvs) w).
Proof.
  revert w. induction kvs as [|[key dv] kvs IH]; intros w.
  - by destruct w.
  - cbn [for_each foldl]. run. rewrite get_config_run. unfold ensure_key at 2.
    cbn [fst snd]. fold (stored key w). unfold set_config. run.
    destruct (py_is_none (stored key w)) eqn:Hnone; rewrite IH;
      unfold stored in Hnone; unfold set_db; cbn; by rewrite Hnone.
Qed.

Lemma ensure_config_keys_run w :
  ensure_config_keys w = (Return (), set_db ensure_db w).
Proof. apply ensure_keys_run. Qed.

Lemma exec_ensure_config_keys w :
  exec ensure_config_keys w = set_db ensure_db w.
Proof. unfold exec. by rewrite ensure_config_keys_run. Qed.

Lemma ensure_key_lookup d key k :
  ensure_key d (key, PyNone) !! k =
  if decide (k = key) then Some (default PyNone (d !! key)) else d !! k.
Proof.
  unfold ensure_key. cbn [fst snd].
  destruct (d !! key) as [[]|] eqn:Hkey; cbn;
    rewrite ?lookup_insert; repeat case_decide; naive_solver.
Qed.

Lemma ensure_keys_lookup kvs d k :
  Forall (λ kv : string * pyval, kv.2 = PyNone) kvs →
  foldl ensure_key d kvs !! k =
  if decide (k ∈ kvs.*1) then Some (default PyNone (d !! k)) else d !! k.
Proof.
  intros Hnone. revert d.
  induction Hnone as [|[key dv] kvs Hdv _ IH]; intros d; cbn in *.
  - rewrite decide_False; [done|]. by intros ?%elem_of_nil.
  - subst dv. rewrite IH, !ensure_key_lookup.
    destruct (decide (k = key)) as [->|Hne].
    + rewrite (decide_True (P := key ∈ key :: kvs.*1)) by left.
      by case_decide.
    + destruct (decide (k ∈ kvs.*1)) as [Hin|Hout].
      * rewrite decide_True; [done|]. by right.
      * rewrite decide_False; [done|]. by intros [?|?]%elem_of_cons.
Qed.

Lemma default_keys_none :
  Forall (λ kv : string * pyval, kv.2 = PyNone) default_keys.
Proof. repeat constructor. Qed.

Lemma ensure_db_lookup d k :
  ensure_db d !! k =
  if decide (k ∈ default_keys.*1) then Some (default PyNone (d !! k)) else d !! k.
Proof. apply ensure_keys_lookup, default_keys_none. Qed.

Lemma ensure_db_idempotent d : ensure_db (ensure_db d) = ensure_db d.
Proof.
  apply map_eq. intros k. rewrite !ensure_db_lookup.
  by case_decide.
Qed.

Lemma ensure_db_reads d k :
  default PyNone (ensure_db d !! k) = default PyNone (d !! k).
Proof. rewrite ensure_db_lookup. by case_decide. Qed.

Lemma ensure_db_dom d :
  dom (ensure_db d) = dom d ∪ list_to_set default_keys.*1.
Proof.
  apply set_eq. intros k.
  rewrite elem_of_union, !elem_of_dom, elem_of_list_to_set, ensure_db_lookup.
  case_decide; [|tauto]. split; [tauto|eauto].
Qed.

(** ** Configuration defaults *)

(** C9. [ensure_config_keys] is idempotent: from every store, running it
    [n >= 1] times leaves the same world as running it once, so the same
    keys with the same values; a run returns without an error, adds exactly
    the four keys to those present, and changes no value that [get_config]
    reads. *)
Theorem ensure_config_keys_idempotent (w : world) (n : nat) :
  (1 ≤ n)%nat →
  Nat.iter n (exec ensure_config_keys) w = exec ensure_config_keys w
  ∧ (ensure_config_keys w).1 = Return ()
  ∧ dom (db (exec ensure_config_keys w))
    = dom (db w) ∪ list_to_set default_keys.*1
  ∧ ∀ key, stored key (exec ensure_config_keys w) = stored key w.
Proof.
  intros Hn. split; [|split; [|split]].
  - destruct n as [|n]; [lia|]. clear Hn.
    induction n as [|n IH]; [done|].
    change (Nat.iter (S (S n)) (exec ensure_config_keys) w)
      with (exec ensure_config_keys (Nat.iter (S n) (exec ensure_config_keys) w)).
    rewrite IH, !exec_ensure_config_keys.
    unfold set_db. cbn [db config channels channel host_edit requests stdout].
    by rewrite ensure_db_idempotent.
  - by rewrite ensure_config_keys_run.
  - rewrite exec_ensure_config_keys. apply ensure_db_dom.
  - intros key. rewrite exec_ensure_config_keys. apply ensure_db_reads.
Qed.

Lemma ensure_config_keys_idempotent_witness :
  (1 ≤ 3)%nat
  ∧ Nat.iter 3 (exec ensure_config_keys)
      (ticket recruitment_only_db None [] None)
    = exec ensure_config_keys (ticket recruitment_only_db None [] None).
Proof.
  split; [lia|].
  apply (ensure_config_keys_idempotent
           (ticket recruitment_only_db None [] None) 3).
  lia.
Defined.

(** [on_ready] after the run that [__init__] scheduled changes nothing. *)
Example on_ready_after_init :
  exec on_ready (exec ensure_config_keys (ticket recruitment_only_db None [] None))
  = exec ensure_config_keys (ticket recruitment_only_db None [] None).
Proof. vm_compute. reflexivity. Qed.

Example ensure_config_keys_fills_the_store :
  db (exec ensure_config_keys (ticket recruitment_only_db None [] None))
  = <["waiting_user_message_category_id" := PyNone]>
    (<["waiting_staff_message_category_id" := PyNone]>
    (<["closing_category_id" := PyNone]>
    (<["recruitment_id" := PyStr "900"]> ∅))).
Proof. vm_compute. reflexivity. Qed.

(** ** Properties of the history scan *)

(** C10. [has_mod_replied] returns a value exactly when every embed it
    looks at before it finds a staff-marked one carries a colour; an embed
    without colour met before any match is not skipped, it makes the scan
    raise [AttributeError]; and such histories exist, so the scan is not
    total. *)
Theorem has_mod_replied_needs_colours (w : world) :
  ((∃ b, (has_mod_replied w).1 = Return b) ↔
   Forall (λ e, is_Some (discord.color e))
          (before_match (mod_color_of w) (scanned w)))
  ∧ ((has_mod_replied w).1 = Raise AttributeError ↔
     Exists (λ e, discord.color e = None)
            (before_match (mod_color_of w) (scanned w)))
  ∧ ∃ w0, (has_mod_replied w0).1 = Raise AttributeError.
Proof.
  rewrite has_mod_replied_run, scan_spec. cbn [fst].
  rewrite <-forallb_has_colour, <-forallb_has_colour_false.
  split; [|split].
  - destruct (forallb _ _); split; eauto; [by intros [? ?]|done].
  - by destruct (forallb _ _).
  - by exists (ticket sample_db (Some 5) [message_of link_preview] None).
Qed.

Lemma has_mod_replied_needs_colours_witness :
  Exists (λ e, discord.color e = None)
    (before_match (PyInt 7506394)
       [user_embed; link_preview; staff_embed])
  ∧ (has_mod_replied
       (ticket sample_db (Some 5)
          [message_of user_embed; message_of link_preview;
           message_of staff_embed] None)).1
    = Raise AttributeError.
Proof.
  assert (Exists (λ e, discord.color e = None)
            (before_match (PyInt 7506394)
               [user_embed; link_preview; staff_embed])) as H.
  { right. left. reflexivity. }
  split; [exact H|].
  apply (has_mod_replied_needs_colours
           (ticket sample_db (Some 5)
              [message_of user_embed; message_of link_preview;
               message_of staff_embed] None)).
  exact H.
Defined.

(** C7. [has_mod_replied] on a history whose newest message carries a link
    preview without colour and whose next message is staff-marked: a
    matching message is in the scanned history, and the scan raises
    [AttributeError] where the contract has it return [True]. *)
Theorem has_mod_replied_misses_match_behind_preview :
  existsb (message_marked (PyInt 7506394))
     (discord.history
        (channel (ticket sample_db (Some 5)
                    [message_of link_preview; message_of staff_embed] None)))
  = true
  ∧ has_mod_replied
      (ticket sample_db (Some 5)
         [message_of link_preview; message_of staff_embed] None)
    = (Raise AttributeError,
       send GetHistory
         (ticket sample_db (Some 5)
            [message_of link_preview; message_of staff_embed] None)).
Proof. split; reflexivity. Qed.

(** The scan stops at the first match: what comes after it is not looked
    at, not even an embed without colour. *)
Example has_mod_replied_stops_at_first_match :
  (has_mod_replied
     (ticket sample_db (Some 5)
        [message_of user_embed; message_of staff_embed;
         message_of link_preview] None)).1
  = Return true.
Proof. reflexivity. Qed.

Example has_mod_replied_without_staff_message :
  (has_mod_replied
     (ticket sample_db (Some 5)
        [message_of user_embed; {| discord.embeds := [] |}] None)).1
  = Return false.
Proof. reflexivity. Qed.

(** ** Properties of the relocator *)

(** C4, as the code has it.  [move_channel] returns without an error and
    changes nothing when its target converts to an integer and either
    [bot.get_channel] finds no channel for it or it is the category the
    cached channel shows.  When Discord accepts a move, [move_channel]
    sends the request and leaves the cached channel as it was: a second
    call right away sends the request again, and a second call is a no-op
    once the gateway's update has brought the new category into the
    cache. *)
Theorem move_channel_noop (v : pyval) (n : Z) (w : world) :
  py_int v = Return n →
  (n ∉ channels w ∨ discord.category_id (channel w) = Some n →
   move_channel v w = (Return (), w))
  ∧ (n ∈ channels w →
     discord.category_id (channel w) ≠ Some n →
     host_edit w n = None →
     move_channel v w = (Return (), send (EditCategory n) w)
     ∧ move_channel v (send (EditCategory n) w)
       = (Return (), send (EditCategory n) (send (EditCategory n) w))
     ∧ move_channel v (channel_update n (send (EditCategory n) w))
       = (Return (), channel_update n (send (EditCategory n) w))).
Proof.
  intros Hint. split.
  - by apply move_channel_skip.
  - intros Hin Hne Hok. split; [|split].
    + by rewrite (move_channel_edit v n w), Hok.
    + rewrite (move_channel_edit v n (send (EditCategory n) w)) by done.
      cbn [host_edit send]. by rewrite Hok.
    + apply (move_channel_skip v n); [done|by right].
Qed.

Lemma move_channel_noop_witness :
  py_int (PyStr "111") = Return 111
  ∧ move_channel (PyStr "111") (ticket sample_db (Some 111) [] None)
    = (Return (), ticket sample_db (Some 111) [] None)
  ∧ move_channel (PyStr "404") (ticket sample_db (Some 5) [] None)
    = (Return (), ticket sample_db (Some 5) [] None)
  ∧ move_channel (PyStr "111")
      (channel_update 111
         (send (EditCategory 111) (ticket sample_db (Some 5) [] None)))
    = (Return (),
       channel_update 111
         (send (EditCategory 111) (ticket sample_db (Some 5) [] None))).
Proof.
  split; [reflexivity|]. split; [|split].
  - apply (move_channel_noop (PyStr "111") 111); [reflexivity|].
    right. reflexivity.
  - apply (move_channel_noop (PyStr "404") 404); [reflexivity|].
    left. vm_compute. intros H. discriminate H.
  - apply (move_channel_noop (PyStr "111") 111
             (ticket sample_db (Some 5) [] None)).
    + reflexivity.
    + vm_compute. reflexivity.
    + intros H. discriminate H.
    + reflexivity.
Defined.

(** C4, as stated, fails in three ways.  An unset target: [int(None)]
    raises [TypeError] before anything else happens.  A target that
    [bot.get_channel] resolves to a channel which is no category, here the
    text channel 555: the edit is requested, Discord refuses it and the
    failure is printed.  A second call right after an accepted move: the
    cached channel still shows the old category and the request is sent
    again. *)
Lemma move_channel_raises_or_requests_again :
  move_channel PyNone (ticket sample_db (Some 5) [] None)
  = (Raise TypeError, ticket sample_db (Some 5) [] None)
  ∧ move_channel (PyStr "555") (ticket_and_text_channel sample_db (Some 5) [])
    = (Return (),
       refused 555 (HTTPException "400 Bad Request")
         (ticket_and_text_channel sample_db (Some 5) []))
  ∧ requests
      (exec (move_channel (PyStr "111"))
            (exec (move_channel (PyStr "111"))
                  (ticket sample_db (Some 5) [] None)))
    = [EditCategory 111; EditCategory 111].
Proof. split; [|split]; reflexivity. Qed.

(** C6. When Discord raises on the move, [move_channel] catches the
    exception, prints it and returns normally: one edit request was sent and
    no second one, the channel stays where it was, and whatever follows the
    call runs. *)
Theorem failed_move_is_contained (v : pyval) (n : Z) (e : exn) (w : world)
    (next : M unit) :
  py_int v = Return n →
  n ∈ channels w →
  discord.category_id (channel w) ≠ Some n →
  host_edit w n = Some e →
  is_Exception e = true →
  move_channel v w = (Return (), refused n e w)
  ∧ requests (exec (move_channel v) w) = requests w ++ [EditCategory n]
  ∧ channel (exec (move_channel v) w) = channel w
  ∧ stdout (exec (move_channel v) w)
    = stdout w ++ ["Failed to move the channel: " +:+ exn_str e]
  ∧ (move_channel v;; next) w = next (refused n e w).
Proof.
  intros Hint Hin Hne Hfail Hexc.
  assert (move_channel v w = (Return (), refused n e w)) as Hrun.
  { by rewrite (move_channel_edit v n w), Hfail, Hexc. }
  unfold exec. run. by rewrite Hrun.
Qed.

Lemma failed_move_is_contained_witness :
  is_Exception (HTTPException "403 Forbidden") = true
  ∧ move_channel (PyStr "111")
      (ticket sample_db (Some 5) [] (Some (HTTPException "403 Forbidden")))
    = (Return (),
       refused 111 (HTTPException "403 Forbidden")
         (ticket sample_db (Some 5) [] (Some (HTTPException "403 Forbidden")))).
Proof.
  split; [reflexivity|].
  apply (failed_move_is_contained (PyStr "111") 111
           (HTTPException "403 Forbidden")
           (ticket sample_db (Some 5) [] (Some (HTTPException "403 Forbidden")))
           (ret ())).
  - reflexivity.
  - vm_compute. reflexivity.
  - intros H. discriminate H.
  - reflexivity.
  - reflexivity.
Defined.

(** The handler goes on after a refused move: a staff reply whose move
    Discord refuses ends normally, with the refusal printed. *)
Example staff_reply_survives_refused_move :
  on_thread_reply true
    (ticket sample_db (Some 5) [] (Some (HTTPException "403 Forbidden")))
  = (Return (),
     refused 111 (HTTPException "403 Forbidden")
       (send GetHistory
          (ticket sample_db (Some 5) [] (Some (HTTPException "403 Forbidden"))))).
Proof. vm_compute. reflexivity. Qed.

(** [except Exception] lets a cancellation through. *)
Example cancelled_move_is_not_caught :
  (move_channel (PyStr "111")
     (ticket sample_db (Some 5) [] (Some CancelledError))).1
  = Raise CancelledError.
Proof. reflexivity. Qed.

(** ** Properties of the reply handler *)

(** C1. On a channel filed under the configured recruitment category the
    handler never requests a move, whoever sent the reply and whatever the
    history holds: it ends in the world the scan leaves, with the channel,
    the store and the output untouched, and it returns normally whenever the
    scan returns. *)
Theorem recruitment_channel_is_never_moved (from_mod : bool) (w : world) :
  in_recruitment w →
  moves (exec (on_thread_reply from_mod) w) = moves w
  ∧ exec (on_thread_reply from_mod) w = send GetHistory w
  ∧ (on_thread_reply from_mod w).1
    = match scan w with
      | Return _ => Return ()
      | Raise e => Raise e
      end.
Proof.
  intros Hrec. unfold exec.
  destruct (scan w) as [b|e] eqn:Hscan.
  - rewrite (on_thread_reply_recruitment from_mod w b) by done.
    cbn [fst snd]. by rewrite moves_send_history.
  - rewrite (on_thread_reply_scan_raises from_mod w e) by done.
    cbn [fst snd]. by rewrite moves_send_history.
Qed.

Lemma recruitment_channel_is_never_moved_witness :
  in_recruitment (ticket sample_db (Some 900) [message_of staff_embed] None)
  ∧ moves (exec (on_thread_reply false)
             (ticket sample_db (Some 900) [message_of staff_embed] None))
    = [].
Proof.
  assert (in_recruitment
            (ticket sample_db (Some 900) [message_of staff_embed] None)) as H.
  { split; [reflexivity|]. exists 900. split; reflexivity. }
  split; [exact H|].
  apply (recruitment_channel_is_never_moved false
           (ticket sample_db (Some 900) [message_of staff_embed] None) H).
Defined.

(** What holds of a staff reply once the scan the handler starts with has
    returned: outside the recruitment category, with the waiting-on-user
    category configured, the handler hands that category to [move_channel],
    and the move there is requested when the id resolves and the cached
    channel is not there yet. *)
Lemma staff_reply_after_scan (w : world) (b : bool) :
  scan w = Return b →
  outside_recruitment w →
  py_truthy (stored "waiting_user_message_category_id" w) = true →
  on_thread_reply true w
  = move_channel (stored "waiting_user_message_category_id" w)
                 (send GetHistory w)
  ∧ ∀ n, py_int (stored "waiting_user_message_category_id" w) = Return n →
         n ∈ channels w →
         discord.category_id (channel w) ≠ Some n →
         host_edit w n = None →
         on_thread_reply true w
         = (Return (), send (EditCategory n) (send GetHistory w)).
Proof.
  intros Hscan Hout Hset.
  assert (on_thread_reply true w
          = move_channel (stored "waiting_user_message_category_id" w)
                         (send GetHistory w)) as Hrun.
  { rewrite (on_thread_reply_elsewhere true w b) by done.
    by apply move_if_set_set. }
  split; [exact Hrun|].
  intros n Hint Hin Hne Hok. rewrite Hrun.
  rewrite (move_channel_edit _ n (send GetHistory w)) by done.
  cbn [host_edit send]. by rewrite Hok.
Qed.

(** C2. A staff reply on a channel outside the recruitment category, with
    the waiting-on-user category configured, existing and different from the
    channel's, whose newest message carries a link preview without colour:
    the handler raises [AttributeError] out of the scan of line 125 and
    requests no move. *)
Theorem staff_reply_behind_preview_is_not_moved :
  outside_recruitment (ticket sample_db (Some 5) [message_of link_preview] None)
  ∧ stored "waiting_user_message_category_id"
      (ticket sample_db (Some 5) [message_of link_preview] None)
    = PyStr "111"
  ∧ 111 ∈ channels (ticket sample_db (Some 5) [message_of link_preview] None)
  ∧ on_thread_reply true
      (ticket sample_db (Some 5) [message_of link_preview] None)
    = (Raise AttributeError,
       send GetHistory
         (ticket sample_db (Some 5) [message_of link_preview] None))
  ∧ moves (exec (on_thread_reply true)
             (ticket sample_db (Some 5) [message_of link_preview] None))
    = [].
Proof.
  split; [|split; [|split; [|split]]]; try reflexivity.
  right. exists 900. split; [reflexivity|]. intros H. discriminate H.
Qed.

(** What holds of a user reply once the scan has returned: outside the
    recruitment category the handler hands the waiting-on-staff category to
    [move_channel] when the scan found a staff-marked message and the
    category is configured, and does nothing when the scan found none. *)
Lemma user_reply_after_scan w b :
  scan w = Return b →
  outside_recruitment w →
  on_thread_reply false w
  = (if b then move_if_set (stored "waiting_staff_message_category_id" w)
     else ret ()) (send GetHistory w).
Proof.
  intros Hscan Hout. rewrite (on_thread_reply_elsewhere false w b) by done.
  by destruct b.
Qed.

(** C3. A user reply on a channel outside the recruitment category, with
    the waiting-on-staff category configured and existing, whose history
    holds a staff-marked message behind a link preview without colour: the
    handler raises [AttributeError] and requests no move. *)
Theorem user_reply_behind_preview_is_not_moved :
  outside_recruitment
    (ticket sample_db (Some 5)
       [message_of link_preview; message_of staff_embed] None)
  ∧ existsb (message_marked (PyInt 7506394))
      (discord.history
         (channel (ticket sample_db (Some 5)
                     [message_of link_preview; message_of staff_embed] None)))
    = true
  ∧ stored "waiting_staff_message_category_id"
      (ticket sample_db (Some 5)
         [message_of link_preview; message_of staff_embed] None)
    = PyStr "222"
  ∧ on_thread_reply false
      (ticket sample_db (Some 5)
         [message_of link_preview; message_of staff_embed] None)
    = (Raise AttributeError,
       send GetHistory
         (ticket sample_db (Some 5)
            [message_of link_preview; message_of staff_embed] None))
  ∧ moves (exec (on_thread_reply false)
             (ticket sample_db (Some 5)
                [message_of link_preview; message_of staff_embed] None))
    = [].
Proof.
  split; [|split; [|split; [|split]]]; try reflexivity.
  right. exists 900. split; [reflexivity|]. intros H. discriminate H.
Qed.

(** What holds of an unset target once the scan the handler starts with
    has returned: when the category id the branches selected is unset, the
    handler returns without an error, requests no move and prints nothing. *)
Lemma unset_target_after_scan (from_mod b : bool) (w : world) :
  scan w = Return b →
  outside_recruitment w →
  py_truthy (selected from_mod b w) = false →
  on_thread_reply from_mod w = (Return (), send GetHistory w)
  ∧ moves (exec (on_thread_reply from_mod) w) = moves w
  ∧ stdout (exec (on_thread_reply from_mod) w) = stdout w.
Proof.
  intros Hscan Hout Hunset.
  assert (on_thread_reply from_mod w = (Return (), send GetHistory w)) as Hrun.
  { rewrite (on_thread_reply_elsewhere from_mod w b) by done.
    by apply move_if_set_unset. }
  unfold exec. rewrite Hrun. cbn [fst snd].
  by rewrite moves_send_history.
Qed.

(** C5. A staff reply with no waiting-on-user category configured, on a
    channel whose newest message carries a link preview without colour: the
    handler requests no move, but it does not complete silently, it raises
    [AttributeError] out of the scan of line 125. *)
Theorem unset_target_behind_preview_raises :
  outside_recruitment
    (ticket recruitment_only_db (Some 5) [message_of link_preview] None)
  ∧ selected true false
      (ticket recruitment_only_db (Some 5) [message_of link_preview] None)
    = PyNone
  ∧ on_thread_reply true
      (ticket recruitment_only_db (Some 5) [message_of link_preview] None)
    = (Raise AttributeError,
       send GetHistory
         (ticket recruitment_only_db (Some 5) [message_of link_preview] None))
  ∧ moves (exec (on_thread_reply true)
             (ticket recruitment_only_db (Some 5) [message_of link_preview] None))
    = [].
Proof.
  split; [|split; [|split]]; try reflexivity.
  right. exists 900. split; [reflexivity|]. intros H. discriminate H.
Qed.

(** C8, as the code has it.  The handler runs the history scan first, on
    every reply event: its request is the first one sent, and a scan that
    raises ends the handler.  When the scan returns, the recruitment test
    short-circuits everything after it, and for a staff reply what follows
    is the same whichever value the scan returned: that value is used for
    user replies only. *)
Theorem scan_runs_first (from_mod : bool) (w : world) :
  (∃ rest, requests (exec (on_thread_reply from_mod) w)
           = requests w ++ GetHistory :: rest)
  ∧ (∀ e, scan w = Raise e →
          on_thread_reply from_mod w = (Raise e, send GetHistory w))
  ∧ (∀ b, scan w = Return b → in_recruitment w →
          on_thread_reply from_mod w = (Return (), send GetHistory w))
  ∧ (∀ b, scan w = Return b → outside_recruitment w →
          on_thread_reply true w
          = move_if_set (stored "waiting_user_message_category_id" w)
                        (send GetHistory w)).
Proof.
  split; [apply on_thread_reply_requests|].
  split; [intros e; apply on_thread_reply_scan_raises|].
  split; [intros b; apply on_thread_reply_recruitment|].
  intros b. apply (on_thread_reply_elsewhere true w b).
Qed.

Lemma scan_runs_first_witness :
  on_thread_reply true
    (ticket sample_db (Some 900) [message_of staff_embed] None)
  = (Return (),
     send GetHistory
       (ticket sample_db (Some 900) [message_of staff_embed] None))
  ∧ on_thread_reply true
      (ticket sample_db (Some 5) [message_of staff_embed] None)
    = move_if_set (PyStr "111")
        (send GetHistory
           (ticket sample_db (Some 5) [message_of staff_embed] None)).
Proof.
  split.
  - apply (scan_runs_first true
             (ticket sample_db (Some 900) [message_of staff_embed] None))
      with (b := true); [reflexivity|].
    split; [reflexivity|]. exists 900. split; reflexivity.
  - apply (scan_runs_first true
             (ticket sample_db (Some 5) [message_of staff_embed] None))
      with (b := true); [reflexivity|].
    right. exists 900. split; [reflexivity|]. intros H. discriminate H.
Defined.

(** C8, as stated, fails: on a reply in a recruitment channel and on a
    staff reply the history is fetched all the same, and on a recruitment
    channel a scan that raises makes the handler raise. *)
Lemma scan_runs_on_exempt_events :
  in_recruitment (ticket sample_db (Some 900) [] None)
  ∧ requests (exec (on_thread_reply false)
                (ticket sample_db (Some 900) [] None))
    = [GetHistory]
  ∧ requests (exec (on_thread_reply true)
                (ticket sample_db (Some 111) [] None))
    = [GetHistory]
  ∧ (on_thread_reply false
       (ticket sample_db (Some 900) [message_of link_preview] None)).1
    = Raise AttributeError.
Proof.
  split; [|split; [|split]]; try reflexivity.
  split; [reflexivity|]. exists 900. split; reflexivity.
Qed.

(** ** The scenarios of the specification *)

(** A staff reply on a channel in some other category asks for the
    waiting-on-user category. *)
Example scenario_staff_reply :
  on_thread_reply true (ticket sample_db (Some 5) [message_of user_embed] None)
  = (Return (),
     send (EditCategory 111)
       (send GetHistory (ticket sample_db (Some 5) [message_of user_embed] None))).
Proof. vm_compute. reflexivity. Qed.

(** The user then answers, the staff message being in the history: the
    handler asks for the waiting-on-staff category. *)
Example scenario_user_reply :
  on_thread_reply false
    (ticket sample_db (Some 111)
       [message_of user_embed; message_of staff_embed; message_of user_embed]
       None)
  = (Return (),
     send (EditCategory 222)
       (send GetHistory
          (ticket sample_db (Some 111)
             [message_of user_embed; message_of staff_embed;
              message_of user_embed] None))).
Proof. vm_compute. reflexivity. Qed.

(** A first user message, before any staff reply, moves nothing. *)
Example scenario_first_user_message :
  on_thread_reply false (ticket sample_db (Some 5) [message_of user_embed] None)
  = (Return (),
     send GetHistory (ticket sample_db (Some 5) [message_of user_embed] None)).
Proof. vm_compute. reflexivity. Qed.

(** With no waiting-on-user category configured a staff reply requests
    nothing and raises nothing. *)
Example scenario_unset_target :
  on_thread_reply true (ticket recruitment_only_db (Some 5) [] None)
  = (Return (), send GetHistory (ticket recruitment_only_db (Some 5) [] None)).
Proof. vm_compute. reflexivity. Qed.

(** A staff reply on a channel already in the waiting-on-user category
    requests nothing. *)
Example scenario_already_at_target :
  on_thread_reply true (ticket sample_db (Some 111) [] None)
  = (Return (), send GetHistory (ticket sample_db (Some 111) [] None)).
Proof. vm_compute. reflexivity. Qed.

(** The builtin [int] on strings. *)
Example py_int_examples :
  map (λ s, py_int (PyStr s))
      ["12"; " 12 "; "+12"; "-12"; "- 12"; "+"; EmptyString; "1_000"; "_1"; "1_";
       "1__0"; "0012"; "-0"; "1 2"; "0x10"; "1.0"]
  = [Return 12; Return 12; Return 12; Return (-12); Raise ValueError;
     Raise ValueError; Raise ValueError; Return 1000; Raise ValueError;
     Raise ValueError; Raise ValueError; Return 12; Return 0;
     Raise ValueError; Raise ValueError; Raise ValueError].
Proof. vm_compute. reflexivity. Qed.

(** ** [str] and [int] *)

Lemma pretty_N_char_facts d :
  (d < 10)%N →
  PyInt.digit (pretty_N_char d) = Some (Z.of_N d)
  ∧ Ascii.eqb (pretty_N_char d) "_"%char = false
  ∧ Ascii.eqb (pretty_N_char d) "-"%char = false
  ∧ Ascii.eqb (pretty_N_char d) "+"%char = false
  ∧ PyInt.is_space (pretty_N_char d) = false.
Proof.
  intros Hd.
  assert (d = 0 ∨ d = 1 ∨ d = 2 ∨ d = 3 ∨ d = 4 ∨ d = 5 ∨ d = 6 ∨ d = 7
          ∨ d = 8 ∨ d = 9)%N as Hcases by lia.
  repeat destruct Hcases as [->|Hcases]; try subst d; by vm_compute.
Qed.

Lemma digits_pretty_N_go x s after_digit :
  (0 < x)%N →
  PyInt.digits 0 after_digit (list_ascii_of_string (pretty_N_go x s))
  = PyInt.digits (Z.of_N x) true (list_ascii_of_string s).
Proof.
  revert s after_digit.
  induction (N.lt_wf_0 x) as [x _ IH]; intros s after_digit Hx.
  rewrite pretty_N_go_step by done.
  destruct (pretty_N_char_facts (x `mod` 10)) as (Hdigit & Hus & _).
  { by apply N.mod_lt. }
  assert (Z.of_N x = 10 * Z.of_N (x `div` 10) + Z.of_N (x `mod` 10)) as Hx10.
  { pose proof (N.div_mod x 10 ltac:(lia)). lia. }
  destruct (decide (x `div` 10 = 0)%N) as [Hsmall|Hbig].
  - rewrite Hsmall, pretty_N_go_0. cbn [list_ascii_of_string PyInt.digits].
    rewrite Hus, Hdigit, Hx10, Hsmall. done.
  - assert (x `div` 10 < x)%N by (apply N.div_lt; lia).
    assert (0 < x `div` 10)%N by (apply N.neq_0_lt_0; exact Hbig).
    rewrite (IH (x `div` 10)%N) by assumption.
    cbn [list_ascii_of_string PyInt.digits].
    by rewrite Hus, Hdigit, Hx10.
Qed.

Lemma pretty_N_go_head x s :
  (0 < x)%N →
  ∃ d rest, (d < 10)%N
    ∧ list_ascii_of_string (pretty_N_go x s) = pretty_N_char d :: rest.
Proof.
  revert s. induction (N.lt_wf_0 x) as [x _ IH]; intros s Hx.
  rewrite pretty_N_go_step by done.
  destruct (decide (x `div` 10 = 0)%N) as [Hsmall|Hbig].
  - rewrite Hsmall, pretty_N_go_0. eexists _, _. split; [|done].
    by apply N.mod_lt.
  - assert (x `div` 10 < x)%N by (apply N.div_lt; lia).
    apply IH; [done|]. apply N.neq_0_lt_0. exact Hbig.
Qed.

Lemma pretty_N_go_no_space x s :
  Forall (λ a, PyInt.is_space a = false) (list_ascii_of_string s) →
  Forall (λ a, PyInt.is_space a = false)
         (list_ascii_of_string (pretty_N_go x s)).
Proof.
  revert s. induction (N.lt_wf_0 x) as [x _ IH]; intros s Hs.
  destruct (decide (x = 0)%N) as [->|Hpos]; [by rewrite pretty_N_go_0|].
  rewrite pretty_N_go_step by lia.
  assert (x `div` 10 < x)%N by (apply N.div_lt; lia).
  apply IH; [done|].
  cbn [list_ascii_of_string]. constructor; [|done].
  apply pretty_N_char_facts. by apply N.mod_lt.
Qed.

Lemma strip_no_space l :
  Forall (λ a, PyInt.is_space a = false) l → PyInt.strip l = l.
Proof.
  assert (∀ l', Forall (λ a, PyInt.is_space a = false) l' → PyInt.lstrip l' = l')
    as Hl.
  { intros l' Hl'. destruct Hl' as [|a l' Ha _]; [done|]. cbn. by rewrite Ha. }
  intros Hno. unfold PyInt.strip.
  rewrite (Hl l Hno), (Hl (rev l)) by by apply Forall_rev.
  apply rev_involutive.
Qed.

(** What a setter stores is what [int] reads back, and it is never taken
    for an unset value. *)
Lemma py_int_py_str n :
  py_int (PyStr (py_str n)) = Return n ∧ py_truthy (PyStr (py_str n)) = true.
Proof.
  unfold py_int, py_truthy, PyInt.of_string, py_str, pretty, pretty_Z.
  destruct n as [|p|p]; [by vm_compute| |].
  - unfold pretty, pretty_positive, pretty, pretty_N.
    rewrite decide_False by done.
    destruct (pretty_N_go_head (N.pos p) "") as (d & rest & Hd & Hhead); [done|].
    destruct (pretty_N_char_facts d Hd) as (_ & _ & Hminus & Hplus & _).
    rewrite strip_no_space by (apply pretty_N_go_no_space; constructor).
    split.
    + unfold PyInt.signed. rewrite Hhead, Hminus, Hplus, <-Hhead.
      by rewrite digits_pretty_N_go.
    + destruct (pretty_N_go (N.pos p) ""); [done|]. done.
  - unfold pretty, pretty_positive, pretty, pretty_N.
    rewrite decide_False by done.
    change (list_ascii_of_string ("-" +:+ pretty_N_go (N.pos p) ""))
      with ("-"%char :: list_ascii_of_string (pretty_N_go (N.pos p) "")).
    rewrite strip_no_space.
    2:{ constructor; [done|]. apply pretty_N_go_no_space. constructor. }
    split; [|done].
    unfold PyInt.signed. cbn [Ascii.eqb Bool.eqb].
    by rewrite digits_pretty_N_go.
Qed.

(** ** The setter commands *)

(** Unfolds a command down to its effect on the world and the context. *)
Ltac run_command :=
  cbv [set_waiting_user_message_category set_waiting_staff_message_category
       set_closing_category set_recruitment_category set_config
       ctx_send sleep];
  run.

Lemma setter_run key label cmd ctx n w :
  (key, label, cmd) ∈ setter_commands →
  cmd ctx n w
  = (Return (told (label +:+ " ID updated successfully: <#" +:+ py_str n +:+ ">.")
                  ctx),
     delivered ctx (set_db <[key := PyStr (py_str n)]> w)).
Proof.
  unfold setter_commands. rewrite !elem_of_cons, elem_of_nil.
  intros [H|[H|[H|[H|[]]]]]; injection H as -> -> ->;
    run_command; unfold delivered, told; destruct (in_thread ctx); reflexivity.
Qed.

Lemma stored_delivered k ctx w : stored k (delivered ctx w) = stored k w.
Proof. unfold delivered. by destruct (in_thread ctx). Qed.

Lemma category_delivered ctx w :
  discord.category_id (channel (delivered ctx w))
  = discord.category_id (channel w).
Proof. unfold delivered. by destruct (in_thread ctx). Qed.

Lemma outside_recruitment_delivered ctx w :
  outside_recruitment w → outside_recruitment (delivered ctx w).
Proof.
  unfold outside_recruitment.
  by rewrite !stored_delivered, category_delivered.
Qed.

Lemma stored_set_db key v k w :
  stored k (set_db <[key := v]> w) = if decide (key = k) then v else stored k w.
Proof.
  unfold stored, set_db. cbn [db]. rewrite lookup_insert.
  by case_decide.
Qed.

(** X1. The id a setter command is given is the id the cog reads back:
    after the command, [int] of the stored value is that id and the stored
    value counts as set, for every integer. *)
Theorem setter_id_reads_back key label cmd (ctx : Context) (n : Z) (w : world) :
  (key, label, cmd) ∈ setter_commands →
  py_int (stored key (exec (cmd ctx n) w)) = Return n
  ∧ py_truthy (stored key (exec (cmd ctx n) w)) = true
  ∧ py_is_none (stored key (exec (cmd ctx n) w)) = false.
Proof.
  intros Hcmd. unfold exec. rewrite (setter_run key label cmd) by done.
  cbn [snd]. rewrite stored_delivered, stored_set_db, decide_True by done.
  destruct (py_int_py_str n) as [Hint Htruthy]. by rewrite Hint, Htruthy.
Qed.

Lemma setter_id_reads_back_witness :
  ("recruitment_id", "Recruitment category", set_recruitment_category)
    ∈ setter_commands
  ∧ py_int (stored "recruitment_id"
              (exec (set_recruitment_category in_ticket (-42))
                    (ticket ∅ None [] None)))
    = Return (-42).
Proof.
  assert (("recruitment_id", "Recruitment category", set_recruitment_category)
            ∈ setter_commands) as H.
  { unfold setter_commands. do 3 right. left. }
  split; [exact H|].
  apply (setter_id_reads_back _ _ _ in_ticket (-42) (ticket ∅ None [] None) H).
Defined.

(** X2. A setter command returns normally, sends the invoker one
    confirmation that quotes the id, and writes the id, as a string, under
    its own key.  The other keys read as before; the bot's configuration,
    the channel cache, the channel's category, the requests and the output
    are untouched; and the thread's channel gains the confirmation as its
    newest message when the command was run there, and no message
    otherwise. *)
Theorem setter_writes_its_key_and_confirms key label cmd (ctx : Context)
    (n : Z) (w : world) :
  (key, label, cmd) ∈ setter_commands →
  (cmd ctx n w).1
  = Return (told (label +:+ " ID updated successfully: <#" +:+ py_str n +:+ ">.")
                 ctx)
  ∧ db (exec (cmd ctx n) w) !! key = Some (PyStr (py_str n))
  ∧ (∀ k, k ≠ key → db (exec (cmd ctx n) w) !! k = db w !! k)
  ∧ config (exec (cmd ctx n) w) = config w
  ∧ channels (exec (cmd ctx n) w) = channels w
  ∧ discord.category_id (channel (exec (cmd ctx n) w))
    = discord.category_id (channel w)
  ∧ discord.messages (channel (exec (cmd ctx n) w))
    = (if in_thread ctx then [text_message] else [])
      ++ discord.messages (channel w)
  ∧ requests (exec (cmd ctx n) w) = requests w
  ∧ stdout (exec (cmd ctx n) w) = stdout w.
Proof.
  intros Hcmd. unfold exec. rewrite (setter_run key label cmd) by done.
  cbn [fst snd]. split; [done|]. unfold delivered.
  destruct (in_thread ctx); cbn.
  - split; [by rewrite lookup_insert_eq|].
    split; [|done]. intros k Hk. by rewrite lookup_insert_ne.
  - split; [by rewrite lookup_insert_eq|].
    split; [|done]. intros k Hk. by rewrite lookup_insert_ne.
Qed.

Lemma setter_writes_its_key_and_confirms_witness :
  ("closing_category_id", "Closing category", set_closing_category)
    ∈ setter_commands
  ∧ (set_closing_category in_ticket 333 (ticket ∅ None [] None)).1
    = Return (told "Closing category ID updated successfully: <#333>." in_ticket)
  ∧ discord.messages
      (channel (exec (set_closing_category in_ticket 333)
                     (ticket ∅ None [message_of user_embed] None)))
    = [text_message; message_of user_embed].
Proof.
  assert (("closing_category_id", "Closing category", set_closing_category)
            ∈ setter_commands) as H.
  { unfold setter_commands. do 2 right. left. }
  split; [exact H|]. split.
  - apply (setter_writes_its_key_and_confirms _ _ _ in_ticket 333
             (ticket ∅ None [] None) H).
  - apply (setter_writes_its_key_and_confirms _ _ _ in_ticket 333
             (ticket ∅ None [message_of user_embed] None) H).
Defined.

(** ** Commands and the reply handler *)

Lemma scan_set_db f w : scan (set_db f w) = scan w.
Proof. reflexivity. Qed.

Lemma outside_recruitment_set_db key v w :
  key ≠ "recruitment_id" →
  outside_recruitment w →
  outside_recruitment (set_db <[key := v]> w).
Proof.
  intros Hkey Hout. unfold outside_recruitment.
  rewrite !stored_set_db, !decide_False by done. exact Hout.
Qed.

Lemma channels_delivered ctx w : channels (delivered ctx w) = channels w.
Proof. unfold delivered. by destruct (in_thread ctx). Qed.

Lemma host_edit_delivered ctx w : host_edit (delivered ctx w) = host_edit w.
Proof. unfold delivered. by destruct (in_thread ctx). Qed.

Lemma requests_delivered ctx w : requests (delivered ctx w) = requests w.
Proof. unfold delivered. by destruct (in_thread ctx). Qed.

(** A reply by [from_mod] after a setter wrote [n] under the key of the
    sender's branch: the handler asks for the move to [n]. *)
Lemma reply_after_setter from_mod b key ctx n w :
  selected from_mod b (delivered ctx (set_db <[key := PyStr (py_str n)]> w))
  = PyStr (py_str n) →
  key ≠ "recruitment_id" →
  scan (delivered ctx (set_db <[key := PyStr (py_str n)]> w)) = Return b →
  outside_recruitment w →
  n ∈ channels w →
  discord.category_id (channel w) ≠ Some n →
  host_edit w n = None →
  on_thread_reply from_mod (delivered ctx (set_db <[key := PyStr (py_str n)]> w))
  = (Return (),
     send (EditCategory n)
       (send GetHistory (delivered ctx (set_db <[key := PyStr (py_str n)]> w)))).
Proof.
  intros Hsel Hkey Hscan Hout Hin Hne Hok.
  set (w' := delivered ctx _) in *.
  destruct (py_int_py_str n) as [Hint Htruthy].
  rewrite (on_thread_reply_elsewhere from_mod w' b);
    [|done|by apply outside_recruitment_delivered, outside_recruitment_set_db].
  rewrite Hsel, move_if_set_set by done.
  rewrite (move_channel_edit _ n); [|done|..].
  - cbn [host_edit send]. unfold w'. rewrite host_edit_delivered.
    cbn [host_edit set_db]. by rewrite Hok.
  - cbn [channels send]. unfold w'. by rewrite channels_delivered.
  - cbn [channel send]. unfold w'. by rewrite category_delivered.
Qed.

(** X4. Once the recruitment category is set to the category the channel
    is filed under, a reply asks for no move of that channel: for either
    sender and every history, the confirmation of the command included,
    the handler requests the history and nothing else. *)
Theorem recruitment_setter_exempts_the_channel (ctx : Context) (n : Z)
    (from_mod : bool) (w : world) :
  discord.category_id (channel w) = Some n →
  requests (exec (on_thread_reply from_mod)
                 (exec (set_recruitment_category ctx n) w))
  = requests w ++ [GetHistory]
  ∧ moves (exec (on_thread_reply from_mod)
                (exec (set_recruitment_category ctx n) w))
    = moves w.
Proof.
  intros Hcat. unfold exec at 2 4.
  rewrite (setter_run "recruitment_id" "Recruitment category") by
    (unfold setter_commands; do 3 right; left).
  cbn [snd]. set (w' := delivered ctx _).
  assert (in_recruitment w') as Hrec.
  { destruct (py_int_py_str n) as [Hint Htruthy].
    unfold in_recruitment, w'.
    rewrite stored_delivered, category_delivered, stored_set_db, decide_True
      by done.
    split; [done|]. by exists n. }
  assert (requests w' = requests w) as Hreq.
  { unfold w'. by rewrite requests_delivered. }
  assert (exec (on_thread_reply from_mod) w' = send GetHistory w') as ->.
  { unfold exec. destruct (scan w') as [b|e] eqn:Hscan.
    - by rewrite (on_thread_reply_recruitment from_mod w' b).
    - by rewrite (on_thread_reply_scan_raises from_mod w' e). }
  split.
  - cbn [requests send]. by rewrite Hreq.
  - rewrite moves_send_history. unfold moves. by rewrite Hreq.
Qed.

Lemma recruitment_setter_exempts_the_channel_witness :
  moves (exec (on_thread_reply true)
           (exec (set_recruitment_category in_ticket 5)
                 (ticket sample_db (Some 5) [message_of user_embed] None)))
  = [].
Proof.
  apply (recruitment_setter_exempts_the_channel in_ticket 5 true
           (ticket sample_db (Some 5) [message_of user_embed] None)).
  reflexivity.
Defined.

(** X5. Once the waiting-on-user category is set to a category the bot
    resolves, a staff reply asks Discord to file the channel there:
    outside the recruitment category, when the scan that follows the
    command returns and the channel is elsewhere, the handler requests the
    history and then one move, to the id the command was given. *)
Theorem waiting_user_setter_directs_staff_replies (ctx : Context) (n : Z)
    (b : bool) (w : world) :
  scan (exec (set_waiting_user_message_category ctx n) w) = Return b →
  outside_recruitment w →
  n ∈ channels w →
  discord.category_id (channel w) ≠ Some n →
  host_edit w n = None →
  on_thread_reply true (exec (set_waiting_user_message_category ctx n) w)
  = (Return (),
     send (EditCategory n)
       (send GetHistory (exec (set_waiting_user_message_category ctx n) w))).
Proof.
  unfold exec.
  rewrite (setter_run "waiting_user_message_category_id"
                      "User message waiting category") by
    (unfold setter_commands; left).
  cbn [snd]. intros Hscan Hout Hin Hne Hok.
  apply (reply_after_setter true b); try done.
  unfold selected. by rewrite stored_delivered, stored_set_db, decide_True.
Qed.

Lemma waiting_user_setter_directs_staff_replies_witness :
  moves (exec (on_thread_reply true)
           (exec (set_waiting_user_message_category in_ticket 222)
                 (ticket sample_db (Some 5) [message_of user_embed] None)))
  = [222].
Proof.
  unfold exec at 1.
  rewrite (waiting_user_setter_directs_staff_replies in_ticket 222 false
             (ticket sample_db (Some 5) [message_of user_embed] None)).
  - reflexivity.
  - reflexivity.
  - right. exists 900. split; [reflexivity|]. intros H. discriminate H.
  - vm_compute. reflexivity.
  - intros H. discriminate H.
  - reflexivity.
Defined.

(** X6. Once the waiting-on-staff category is set to a category the bot
    resolves, a user reply after a staff reply asks Discord to file the
    channel there: outside the recruitment category, when the scan that
    follows the command finds a staff-marked message and the channel is
    elsewhere, the handler requests the history and then one move, to the
    id the command was given. *)
Theorem waiting_staff_setter_directs_user_replies (ctx : Context) (n : Z)
    (w : world) :
  scan (exec (set_waiting_staff_message_category ctx n) w) = Return true →
  outside_recruitment w →
  n ∈ channels w →
  discord.category_id (channel w) ≠ Some n →
  host_edit w n = None →
  on_thread_reply false (exec (set_waiting_staff_message_category ctx n) w)
  = (Return (),
     send (EditCategory n)
       (send GetHistory (exec (set_waiting_staff_message_category ctx n) w))).
Proof.
  unfold exec.
  rewrite (setter_run "waiting_staff_message_category_id"
                      "Staff message waiting category") by
    (unfold setter_commands; right; left).
  cbn [snd]. intros Hscan Hout Hin Hne Hok.
  apply (reply_after_setter false true); try done.
  unfold selected. by rewrite stored_delivered, stored_set_db, decide_True.
Qed.

Lemma waiting_staff_setter_directs_user_replies_witness :
  moves (exec (on_thread_reply false)
           (exec (set_waiting_staff_message_category in_ticket 333)
                 (ticket sample_db (Some 5) [message_of staff_embed] None)))
  = [333].
Proof.
  unfold exec at 1.
  rewrite (waiting_staff_setter_directs_user_replies in_ticket 333
             (ticket sample_db (Some 5) [message_of staff_embed] None)).
  - reflexivity.
  - reflexivity.
  - right. exists 900. split; [reflexivity|]. intros H. discriminate H.
  - vm_compute. reflexivity.
  - intros H. discriminate H.
  - reflexivity.
Defined.

(** ** The closing command *)

Lemma closing_in_thread ctx w :
  in_thread ctx = true →
  move_to_closing_category ctx w
  = if py_is_none (stored "closing_category_id" w)
    then (Return (told "The closing category ID is not configured." ctx),
          post_text w)
    else match move_channel (stored "closing_category_id" w) w with
         | (Return _, w') => (Return ctx, w')
         | (Raise e, w') => (Raise e, w')
         end.
Proof.
  intros Hthread. unfold move_to_closing_category. rewrite Hthread.
  run_command. rewrite get_config_run.
  destruct (py_is_none (stored "closing_category_id" w)).
  - cbn [negb]. unfold told. by rewrite ?Hthread.
  - cbn [negb]. by destruct (move_channel _ w) as [[]].
Qed.

(** X7. When the closing command cannot act it says so and asks Discord
    for no move: run outside a thread channel, or in one while no closing
    category is configured, it returns normally and sends the matching
    notice.  Outside a thread channel the world of the thread is left as it
    was; in one, the notice is the channel's newest message and nothing
    else changed. *)
Theorem closing_command_reports_why_it_does_nothing (ctx : Context) (w : world) :
  (in_thread ctx = false →
   move_to_closing_category ctx w
   = (Return (told "This command must be used in a thread channel." ctx), w))
  ∧ (in_thread ctx = true →
     stored "closing_category_id" w = PyNone →
     move_to_closing_category ctx w
     = (Return (told "The closing category ID is not configured." ctx),
        post_text w)
     ∧ requests (post_text w) = requests w
     ∧ db (post_text w) = db w
     ∧ discord.category_id (channel (post_text w))
       = discord.category_id (channel w)
     ∧ discord.messages (channel (post_text w))
       = text_message :: discord.messages (channel w)).
Proof.
  split.
  - intros Hout. unfold move_to_closing_category. rewrite Hout.
    run_command. unfold told. by rewrite ?Hout.
  - intros Hin Hnone. by rewrite closing_in_thread, Hnone.
Qed.

Lemma closing_command_reports_why_it_does_nothing_witness :
  move_to_closing_category elsewhere (ticket sample_db (Some 5) [] None)
  = (Return (told "This command must be used in a thread channel." elsewhere),
     ticket sample_db (Some 5) [] None)
  ∧ move_to_closing_category in_ticket (ticket recruitment_only_db (Some 5) [] None)
    = (Return (told "The closing category ID is not configured." in_ticket),
       post_text (ticket recruitment_only_db (Some 5) [] None)).
Proof.
  split.
  - apply (closing_command_reports_why_it_does_nothing elsewhere
             (ticket sample_db (Some 5) [] None)).
    reflexivity.
  - apply (closing_command_reports_why_it_does_nothing in_ticket
             (ticket recruitment_only_db (Some 5) [] None)); reflexivity.
Defined.

(** X8. Once the closing category is set to a category the bot resolves,
    the closing command run in a thread channel that is filed elsewhere
    asks Discord to file it there: one edit request to the id the setter
    was given, no look at the history, and no message to the invoker. *)
Theorem closing_setter_then_closing_command (ctx ctx' : Context) (n : Z)
    (w : world) :
  in_thread ctx' = true →
  n ∈ channels w →
  discord.category_id (channel w) ≠ Some n →
  host_edit w n = None →
  move_to_closing_category ctx' (exec (set_closing_category ctx n) w)
  = (Return ctx', send (EditCategory n) (exec (set_closing_category ctx n) w))
  ∧ requests (exec (move_to_closing_category ctx')
                   (exec (set_closing_category ctx n) w))
    = requests w ++ [EditCategory n].
Proof.
  intros Hthread Hin Hne Hok.
  assert (move_to_closing_category ctx' (exec (set_closing_category ctx n) w)
          = (Return ctx',
             send (EditCategory n) (exec (set_closing_category ctx n) w)))
    as Hrun.
  { unfold exec.
    rewrite (setter_run "closing_category_id" "Closing category") by
      (unfold setter_commands; do 2 right; left).
    cbn [snd].
    destruct (py_int_py_str n) as [Hint Htruthy].
    rewrite closing_in_thread, stored_delivered, stored_set_db, decide_True
      by done.
    cbn [py_is_none].
    rewrite (move_channel_edit _ n);
      [|done|by rewrite channels_delivered|by rewrite category_delivered].
    rewrite host_edit_delivered. cbn [host_edit set_db]. by rewrite Hok. }
  split; [exact Hrun|].
  unfold exec at 1. rewrite Hrun. cbn [snd requests send]. unfold exec.
  rewrite (setter_run "closing_category_id" "Closing category") by
    (unfold setter_commands; do 2 right; left).
  cbn [snd]. by rewrite requests_delivered.
Qed.

Lemma closing_setter_then_closing_command_witness :
  move_to_closing_category in_ticket
    (exec (set_closing_category in_ticket 333)
          (ticket recruitment_only_db (Some 5) [] None))
  = (Return in_ticket,
     send (EditCategory 333)
       (exec (set_closing_category in_ticket 333)
             (ticket recruitment_only_db (Some 5) [] None))).
Proof.
  apply (closing_setter_then_closing_command in_ticket in_ticket 333
           (ticket recruitment_only_db (Some 5) [] None)).
  - reflexivity.
  - vm_compute. reflexivity.
  - intros H. discriminate H.
  - reflexivity.
Defined.

(** X9. The recruitment exemption covers replies only.  On a channel filed
    under the recruitment category, with a closing category configured that
    the bot resolves and that Discord accepts, a reply requests no move,
    while the closing command asks Discord to move the channel to the
    closing category. *)
Theorem closing_command_ignores_the_recruitment_exemption (ctx : Context)
    (from_mod : bool) (n : Z) (w : world) :
  in_recruitment w →
  in_thread ctx = true →
  py_is_none (stored "closing_category_id" w) = false →
  py_int (stored "closing_category_id" w) = Return n →
  n ∈ channels w →
  discord.category_id (channel w) ≠ Some n →
  host_edit w n = None →
  moves (exec (on_thread_reply from_mod) w) = moves w
  ∧ move_to_closing_category ctx w = (Return ctx, send (EditCategory n) w)
  ∧ moves (exec (move_to_closing_category ctx) w) = moves w ++ [n].
Proof.
  intros Hrec Hthread Hset Hint Hin Hne Hok.
  assert (move_to_closing_category ctx w
          = (Return ctx, send (EditCategory n) w)) as Hrun.
  { rewrite closing_in_thread, Hset by done.
    rewrite (move_channel_edit _ n) by done. by rewrite Hok. }
  split; [|split; [exact Hrun|]].
  - unfold exec. destruct (scan w) as [b|e] eqn:Hscan.
    + rewrite (on_thread_reply_recruitment from_mod w b) by done.
      cbn [snd]. by rewrite moves_send_history.
    + rewrite (on_thread_reply_scan_raises from_mod w e) by done.
      cbn [snd]. by rewrite moves_send_history.
  - unfold exec. rewrite Hrun. cbn [snd].
    unfold moves, send. cbn [requests]. by rewrite omap_app.
Qed.

Lemma closing_command_ignores_the_recruitment_exemption_witness :
  in_recruitment (ticket sample_db (Some 900) [] None)
  ∧ move_to_closing_category in_ticket (ticket sample_db (Some 900) [] None)
    = (Return in_ticket,
       send (EditCategory 333) (ticket sample_db (Some 900) [] None)).
Proof.
  assert (in_recruitment (ticket sample_db (Some 900) [] None)) as H.
  { split; [reflexivity|]. exists 900. split; reflexivity. }
  split; [exact H|].
  apply (closing_command_ignores_the_recruitment_exemption in_ticket true 333
           (ticket sample_db (Some 900) [] None) H).
  - reflexivity.
  - reflexivity.
  - reflexivity.
  - vm_compute. reflexivity.
  - intros E. discriminate E.
  - reflexivity.
Defined.

(** X10. When Discord refuses the move the closing command asks for, the
    command still returns normally and the invoker is sent nothing: the
    refusal goes to the standard output only, and the channel stays where
    it was. *)
Theorem closing_command_hides_a_refusal (ctx : Context) (n : Z) (e : exn)
    (w : world) :
  in_thread ctx = true →
  py_is_none (stored "closing_category_id" w) = false →
  py_int (stored "closing_category_id" w) = Return n →
  n ∈ channels w →
  discord.category_id (channel w) ≠ Some n →
  host_edit w n = Some e →
  is_Exception e = true →
  move_to_closing_category ctx w = (Return ctx, refused n e w)
  ∧ channel (refused n e w) = channel w
  ∧ stdout (refused n e w)
    = stdout w ++ ["Failed to move the channel: " +:+ exn_str e].
Proof.
  intros Hthread Hset Hint Hin Hne Hfail Hexc. split; [|done].
  rewrite closing_in_thread, Hset by done.
  rewrite (move_channel_edit _ n) by done. by rewrite Hfail, Hexc.
Qed.

Lemma closing_command_hides_a_refusal_witness :
  move_to_closing_category in_ticket
    (ticket sample_db (Some 5) [] (Some (HTTPException "403 Forbidden")))
  = (Return in_ticket,
     refused 333 (HTTPException "403 Forbidden")
       (ticket sample_db (Some 5) [] (Some (HTTPException "403 Forbidden")))).
Proof.
  apply (closing_command_hides_a_refusal in_ticket 333
           (HTTPException "403 Forbidden")
           (ticket sample_db (Some 5) [] (Some (HTTPException "403 Forbidden")))).
  - reflexivity.
  - reflexivity.
  - reflexivity.
  - vm_compute. reflexivity.
  - intros E. discriminate E.
  - reflexivity.
  - reflexivity.
Defined.

(** X11. The closing command tests its category id against [None] only,
    where the reply handler tests its truth value.  A stored value that is
    not [None] but that [int] rejects, such as an empty string, makes the
    closing command raise the conversion error, with nothing requested and
    nothing sent; the same value as waiting-on-user category makes a staff
    reply return normally with no move when it is falsy. *)
Theorem closing_command_raises_on_unreadable_id (ctx : Context) (v : pyval)
    (e : exn) (b : bool) (w : world) :
  in_thread ctx = true →
  py_is_none v = false →
  py_int v = Raise e →
  py_truthy v = false →
  (stored "closing_category_id" w = v →
   move_to_closing_category ctx w = (Raise e, w))
  ∧ (stored "waiting_user_message_category_id" w = v →
     scan w = Return b →
     outside_recruitment w →
     on_thread_reply true w = (Return (), send GetHistory w)).
Proof.
  intros Hthread Hnot_none Hint Hfalsy. split.
  - intros Hv. rewrite closing_in_thread, Hv, Hnot_none by done.
    by rewrite (move_channel_bad_argument v e).
  - intros Hv Hscan Hout.
    rewrite (on_thread_reply_elsewhere true w b) by done.
    unfold selected. rewrite Hv. by apply move_if_set_unset.
Qed.

Lemma closing_command_raises_on_unreadable_id_witness :
  move_to_closing_category in_ticket
    (ticket (<["closing_category_id" := PyStr EmptyString]> sample_db)
            (Some 5) [] None)
  = (Raise ValueError,
     ticket (<["closing_category_id" := PyStr EmptyString]> sample_db)
            (Some 5) [] None).
Proof.
  apply (closing_command_raises_on_unreadable_id in_ticket (PyStr EmptyString)
           ValueError false
           (ticket (<["closing_category_id" := PyStr EmptyString]> sample_db)
                   (Some 5) [] None)); reflexivity.
Defined.

(** ** What the relocator and the handler leave alone *)

(** Every way [move_channel] can end. *)
Lemma move_channel_outcome v w :
  (∃ e, py_int v = Raise e ∧ move_channel v w = (Raise e, w))
  ∨ (∃ n, py_int v = Return n
        ∧ (n ∉ channels w ∨ discord.category_id (channel w) = Some n)
        ∧ move_channel v w = (Return (), w))
  ∨ (∃ n, py_int v = Return n ∧ n ∈ channels w
        ∧ discord.category_id (channel w) ≠ Some n
        ∧ ((host_edit w n = None
            ∧ move_channel v w = (Return (), send (EditCategory n) w))
           ∨ (∃ e, host_edit w n = Some e ∧ is_Exception e = true
                 ∧ move_channel v w = (Return (), refused n e w))
           ∨ (∃ e, host_edit w n = Some e ∧ is_Exception e = false
                 ∧ move_channel v w = (Raise e, send (EditCategory n) w)))).
Proof.
  destruct (py_int v) as [n|e] eqn:Hint.
  - destruct (decide (n ∈ channels w)) as [Hin|Hout].
    + destruct (decide (discord.category_id (channel w) = Some n)) as [Heq|Hne].
      * right; left. exists n. split; [done|]. split; [by right|].
        apply (move_channel_skip v n w); auto.
      * right; right. exists n. split; [done|]. split; [done|]. split; [done|].
        rewrite (move_channel_edit v n w) by done.
        destruct (host_edit w n) as [e|]; [|by left].
        right. destruct (is_Exception e) eqn:He; [left|right]; by exists e.
    + right; left. exists n. split; [done|]. split; [by left|].
        apply (move_channel_skip v n w); auto.
  - left. exists e. by rewrite (move_channel_bad_argument v e w).
Qed.

(** X12. The only errors that escape [move_channel] are the conversion
    error of [int] on its argument, raised before anything is requested,
    and an exception of Discord's that does not derive from [Exception]. *)
Theorem move_channel_escaping_errors (v : pyval) (e : exn) (w : world) :
  (move_channel v w).1 = Raise e ↔
  (py_int v = Raise e ∧ exec (move_channel v) w = w)
  ∨ ∃ n, py_int v = Return n ∧ n ∈ channels w
         ∧ discord.category_id (channel w) ≠ Some n
         ∧ host_edit w n = Some e ∧ is_Exception e = false.
Proof.
  unfold exec.
  destruct (move_channel_outcome v w)
    as [(e' & Hint & ->)
       |[(n & Hint & Hskip & ->)
        |(n & Hint & Hin & Hne
          & [(Hok & ->)|[(e' & Hfail & Hexc & ->)|(e' & Hfail & Hexc & ->)]])]];
    cbn [fst snd]; rewrite Hint.
  - split; [intros [= ->]; by left|].
    intros [[[= ->] _]|(? & [=] & _)]. done.
  - split; [done|]. intros [[[=] _]|(n' & [= <-] & Hin & Hne & _)].
    destruct Hskip; done.
  - split; [done|]. intros [[[=] _]|(n' & [= <-] & _ & _ & Hfail & _)].
    by rewrite Hok in Hfail.
  - split; [done|]. intros [[[=] _]|(n' & [= <-] & _ & _ & Hfail' & Hexc')].
    rewrite Hfail in Hfail'. injection Hfail' as ->. by rewrite Hexc in Hexc'.
  - split.
    + intros [= ->]. right. by exists n.
    + intros [[[=] _]|(n' & [= <-] & _ & _ & Hfail' & _)].
      rewrite Hfail in Hfail'. by injection Hfail' as ->.
Qed.

Lemma move_channel_escaping_errors_witness :
  (move_channel (PyStr "closing")
     (ticket sample_db (Some 5) [] None)).1 = Raise ValueError
  ∧ exec (move_channel (PyStr "closing")) (ticket sample_db (Some 5) [] None)
    = ticket sample_db (Some 5) [] None.
Proof.
  split; [reflexivity|].
  destruct (proj1 (move_channel_escaping_errors (PyStr "closing") ValueError
                     (ticket sample_db (Some 5) [] None)) eq_refl)
    as [[_ H]|(n & H & _)]; [exact H|discriminate H].
Defined.

(** A recruitment id that is set but that [int] rejects ends the handler
    with the conversion error. *)
Lemma on_thread_reply_bad_recruitment from_mod w b e :
  scan w = Return b →
  py_truthy (stored "recruitment_id" w) = true →
  py_int (stored "recruitment_id" w) = Raise e →
  on_thread_reply from_mod w = (Raise e, send GetHistory w).
Proof.
  intros Hscan Hset Hint. unfold on_thread_reply. run.
  by rewrite has_mod_replied_run, Hscan, get_config_run, stored_send, Hset, Hint.
Qed.

(** How a run of the handler ends: with the scan alone, or with the scan
    followed by [move_channel] on the category id the branches selected. *)
Lemma on_thread_reply_shape from_mod w :
  (∃ r, on_thread_reply from_mod w = (r, send GetHistory w))
  ∨ ∃ b, scan w = Return b
         ∧ py_truthy (selected from_mod b w) = true
         ∧ on_thread_reply from_mod w
           = move_channel (selected from_mod b w) (send GetHistory w).
Proof.
  destruct (scan w) as [b|e] eqn:Hscan.
  2:{ left. eexists. by apply on_thread_reply_scan_raises. }
  assert (outside_recruitment w →
          (∃ r, on_thread_reply from_mod w = (r, send GetHistory w))
          ∨ ∃ b0, Return b = Return b0
                  ∧ py_truthy (selected from_mod b0 w) = true
                  ∧ on_thread_reply from_mod w
                    = move_channel (selected from_mod b0 w) (send GetHistory w))
    as Helsewhere.
  { intros Hout. rewrite (on_thread_reply_elsewhere from_mod w b) by done.
    destruct (py_truthy (selected from_mod b w)) eqn:Hsel.
    - right. exists b. by rewrite move_if_set_set.
    - left. eexists. by apply move_if_set_unset. }
  destruct (py_truthy (stored "recruitment_id" w)) eqn:Hset.
  2:{ apply Helsewhere. by left. }
  destruct (py_int (stored "recruitment_id" w)) as [n|e] eqn:Hint.
  2:{ left. eexists. by apply (on_thread_reply_bad_recruitment from_mod w b e). }
  destruct (decide (discord.category_id (channel w) = Some n)) as [Heq|Hne].
  - left. eexists. apply (on_thread_reply_recruitment from_mod w b); [done|].
    split; [done|]. by exists n.
  - apply Helsewhere. right. by exists n.
Qed.

Lemma move_channel_frame v w :
  db (exec (move_channel v) w) = db w
  ∧ config (exec (move_channel v) w) = config w
  ∧ channels (exec (move_channel v) w) = channels w
  ∧ discord.messages (channel (exec (move_channel v) w))
    = discord.messages (channel w)
  ∧ (discord.category_id (channel (exec (move_channel v) w))
     = discord.category_id (channel w)
     ∨ ∃ n, n ∈ channels w
            ∧ discord.category_id (channel (exec (move_channel v) w)) = Some n).
Proof.
  unfold exec.
  destruct (move_channel_outcome v w)
    as [(e' & Hint & ->)
       |[(n & Hint & Hskip & ->)
        |(n & Hint & Hin & Hne
          & [(Hok & ->)|[(e' & Hfail & Hexc & ->)|(e' & Hfail & Hexc & ->)]])]];
    cbn; repeat split; auto.
Qed.

Lemma move_channel_channel v w : channel (exec (move_channel v) w) = channel w.
Proof.
  unfold exec.
  by destruct (move_channel_outcome v w)
    as [(e' & Hint & ->)
       |[(n & Hint & Hskip & ->)
        |(n & Hint & Hin & Hne
          & [(Hok & ->)|[(e' & Hfail & Hexc & ->)|(e' & Hfail & Hexc & ->)]])]].
Qed.

Lemma move_channel_requests_exactly v w :
  requests (exec (move_channel v) w) = requests w
  ∨ ∃ n, py_int v = Return n ∧ n ∈ channels w
         ∧ discord.category_id (channel w) ≠ Some n
         ∧ requests (exec (move_channel v) w) = requests w ++ [EditCategory n].
Proof.
  unfold exec.
  destruct (move_channel_outcome v w)
    as [(e' & Hint & ->)
       |[(n & Hint & Hskip & ->)
        |(n & Hint & Hin & Hne
          & [(Hok & ->)|[(e' & Hfail & Hexc & ->)|(e' & Hfail & Hexc & ->)]])]];
    cbn [snd]; [by left|by left|right; by exists n..].
Qed.

(** X13. A reply never changes the configuration: whatever the sender, the
    history and the answer of Discord, the handler leaves the store, the
    bot's configuration, the channel cache and the channel's messages as
    they were, and the channel either keeps its category or ends under a
    category the bot resolves. *)
Theorem on_thread_reply_frame (from_mod : bool) (w : world) :
  db (exec (on_thread_reply from_mod) w) = db w
  ∧ config (exec (on_thread_reply from_mod) w) = config w
  ∧ channels (exec (on_thread_reply from_mod) w) = channels w
  ∧ discord.messages (channel (exec (on_thread_reply from_mod) w))
    = discord.messages (channel w)
  ∧ (discord.category_id (channel (exec (on_thread_reply from_mod) w))
     = discord.category_id (channel w)
     ∨ ∃ n, n ∈ channels w
            ∧ discord.category_id (channel (exec (on_thread_reply from_mod) w))
              = Some n).
Proof.
  destruct (on_thread_reply_shape from_mod w) as [[r Hrun]|(b & _ & _ & Hrun)];
    unfold exec; rewrite Hrun.
  - cbn. repeat split; auto.
  - apply (move_channel_frame (selected from_mod b w) (send GetHistory w)).
Qed.

(** X14. A reply costs one history request and at most one edit request,
    and the edit asks for the waiting category of the sender's branch: the
    waiting-on-user category for a staff reply, the waiting-on-staff
    category for a user reply after the scan found a staff-marked message.
    The handler never asks for another category. *)
Theorem on_thread_reply_requests_one_move_at_most (from_mod : bool) (w : world) :
  requests (exec (on_thread_reply from_mod) w) = requests w ++ [GetHistory]
  ∨ ∃ b n, scan w = Return b
           ∧ (from_mod = false → b = true)
           ∧ py_int (stored (if from_mod
                             then "waiting_user_message_category_id"
                             else "waiting_staff_message_category_id") w)
             = Return n
           ∧ n ∈ channels w
           ∧ discord.category_id (channel w) ≠ Some n
           ∧ requests (exec (on_thread_reply from_mod) w)
             = requests w ++ [GetHistory; EditCategory n].
Proof.
  destruct (on_thread_reply_shape from_mod w)
    as [[r Hrun]|(b & Hscan & Hsel & Hrun)]; unfold exec; rewrite Hrun.
  - by left.
  - destruct (move_channel_requests_exactly (selected from_mod b w)
                                            (send GetHistory w))
      as [Hsame|(n & Hint & Hin & Hne & Hreq)]; unfold exec in *.
    + left. by rewrite Hsame.
    + right. exists b, n. split; [done|].
      assert (from_mod = false → b = true) as Hb.
      { intros ->. destruct b; [done|]. discriminate Hsel. }
      split; [exact Hb|].
      split.
      { destruct from_mod; [exact Hint|]. by rewrite Hb in Hint. }
      split; [done|]. split; [done|].
      rewrite Hreq. cbn [requests send]. by rewrite <-app_assoc.
Qed.

(** ** Edge cases of the history scan *)

Lemma staff_marked_needs_int mc e :
  (∀ n, mc ≠ PyInt n) → staff_marked mc e = false.
Proof.
  intros Hmc. unfold staff_marked, py_eq.
  destruct (discord.color e) as [c|]; [|done].
  apply bool_decide_eq_false_2. intros H. by apply (Hmc (discord.value c)).
Qed.

Lemma scan_never_true_without_marked w :
  existsb (message_marked (mod_color_of w)) (discord.history (channel w)) = false →
  scan w ≠ Return true.
Proof.
  intros Hnone. rewrite scan_spec, Hnone. by destruct (forallb _ _).
Qed.

(** X15. With no integer [mod_color] in the bot's configuration (the key
    missing, or holding something else than an [int]) no embed counts as
    staff-marked: the scan never answers [True], and a user reply never
    moves the channel, whatever the history and the categories. *)
Theorem user_reply_without_mod_color (w : world) :
  (∀ n, mod_color_of w ≠ PyInt n) →
  (has_mod_replied w).1 ≠ Return true
  ∧ moves (exec (on_thread_reply false) w) = moves w
  ∧ channel (exec (on_thread_reply false) w) = channel w.
Proof.
  intros Hmc.
  assert (scan w ≠ Return true) as Hscan.
  { apply scan_never_true_without_marked.
    induction (discord.history (channel w)) as [|m l IH]; [done|].
    cbn [existsb]. rewrite IH, orb_false_r. unfold message_marked.
    induction (discord.embeds m) as [|e es IHe]; [done|].
    cbn [existsb]. by rewrite IHe, staff_marked_needs_int. }
  split; [by rewrite has_mod_replied_run|].
  unfold exec.
  destruct (on_thread_reply_shape false w)
    as [[r ->]|(b & Hb & Hsel & _)].
  - cbn [snd]. by rewrite moves_send_history.
  - destruct b; [done|]. discriminate Hsel.
Qed.

Lemma user_reply_without_mod_color_witness :
  moves (exec (on_thread_reply false)
           {| db := sample_db; config := ∅; channels := {[ 111; 222 ]};
              channel := {| discord.category_id := Some 5;
                            discord.messages := [message_of staff_embed] |};
              host_edit := λ _, None; requests := []; stdout := [] |})
  = [].
Proof.
  apply (user_reply_without_mod_color
           {| db := sample_db; config := ∅; channels := {[ 111; 222 ]};
              channel := {| discord.category_id := Some 5;
                            discord.messages := [message_of staff_embed] |};
              host_edit := λ _, None; requests := []; stdout := [] |}).
  intros n H. discriminate H.
Defined.

(** X16. The scan sees the hundred newest messages only.  When those hold
    coloured embeds none of which is staff-marked, the answer is [False]
    whatever the older messages hold, a staff reply included. *)
Theorem has_mod_replied_misses_old_staff_reply (w : world)
    (newest older : list discord.Message) :
  discord.messages (channel w) = newest ++ older →
  List.length newest = discord.history_limit →
  Forall (λ e, is_Some (discord.color e)) (flatten newest) →
  existsb (message_marked (mod_color_of w)) newest = false →
  has_mod_replied w = (Return false, send GetHistory w).
Proof.
  intros Hmsgs Hlen Hcol Hnone.
  assert (discord.history (channel w) = newest) as Hhist.
  { unfold discord.history. rewrite Hmsgs, <-Hlen. apply take_app_length. }
  rewrite has_mod_replied_on_coloured; rewrite ?Hhist; [by rewrite Hnone|].
  unfold scanned. rewrite Hhist.
  assert (∀ mc l, Forall (λ e, is_Some (discord.color e)) l →
                  Forall (λ e, is_Some (discord.color e)) (before_match mc l))
    as Hbefore.
  { intros mc l Hl. induction Hl as [|e l He _ IH]; [constructor|].
    cbn. destruct (staff_marked mc e); by constructor. }
  by apply Hbefore.
Qed.

Lemma has_mod_replied_misses_old_staff_reply_witness :
  has_mod_replied
    (ticket sample_db (Some 5)
       (replicate 100 (message_of user_embed) ++ [message_of staff_embed]) None)
  = (Return false,
     send GetHistory
       (ticket sample_db (Some 5)
          (replicate 100 (message_of user_embed) ++ [message_of staff_embed])
          None)).
Proof.
  apply (has_mod_replied_misses_old_staff_reply _
           (replicate 100 (message_of user_embed)) [message_of staff_embed]).
  - reflexivity.
  - reflexivity.
  - vm_compute. repeat constructor; by eexists.
  - vm_compute. reflexivity.
Defined.

(** ** Replies and commands in sequence *)

(** X17. A staff reply asks for the move until the cache shows it.  After
    a staff reply has asked Discord to file the channel under the
    waiting-on-user category, the cached channel still shows the old
    category: a further staff reply on the same history requests the
    history and the same move again.  Once the gateway's update has
    reached the cache, a further staff reply requests the history and no
    edit. *)
Theorem staff_reply_repeats_the_move_until_the_update (w : world) (b : bool)
    (n : Z) :
  scan w = Return b →
  outside_recruitment w →
  py_truthy (stored "waiting_user_message_category_id" w) = true →
  py_int (stored "waiting_user_message_category_id" w) = Return n →
  n ∈ channels w →
  discord.category_id (channel w) ≠ Some n →
  host_edit w n = None →
  exec (on_thread_reply true) w = send (EditCategory n) (send GetHistory w)
  ∧ requests (exec (on_thread_reply true) (exec (on_thread_reply true) w))
    = requests w ++ [GetHistory; EditCategory n; GetHistory; EditCategory n]
  ∧ on_thread_reply true (channel_update n (exec (on_thread_reply true) w))
    = (Return (),
       send GetHistory (channel_update n (exec (on_thread_reply true) w))).
Proof.
  intros Hscan Hout Hset Hint Hin Hne Hok.
  destruct (staff_reply_after_scan w b Hscan Hout Hset) as [_ Hmove].
  unfold exec. rewrite (Hmove n) by done. cbn [snd]. split; [done|].
  set (w1 := send (EditCategory n) (send GetHistory w)).
  split.
  - assert (scan w1 = Return b) as Hscan1 by exact Hscan.
    assert (outside_recruitment w1) as Hout1 by exact Hout.
    destruct (staff_reply_after_scan w1 b Hscan1 Hout1 Hset) as [_ Hmove1].
    rewrite (Hmove1 n) by done. cbn [snd requests send w1].
    by rewrite <-!app_assoc.
  - set (w2 := channel_update n w1).
    assert (scan w2 = Return b) as Hscan2 by exact Hscan.
    assert (∀ key, stored key w2 = stored key w) as Hstored by done.
    assert (discord.category_id (channel w2) = Some n) as Hcat2 by done.
    assert (outside_recruitment w2 →
            on_thread_reply true w2 = (Return (), send GetHistory w2)) as Hskip.
    { intros Hout2. rewrite (on_thread_reply_elsewhere true w2 b) by done.
      unfold selected. rewrite Hstored, move_if_set_set by done.
      apply (move_channel_skip _ n); [done|by right]. }
    destruct (py_truthy (stored "recruitment_id" w)) eqn:Htruthy.
    2:{ apply Hskip. left. by rewrite Hstored. }
    destruct Hout as [Hunset|(r & Hr & Hnr)]; [by rewrite Hunset in Htruthy|].
    destruct (decide (r = n)) as [->|Hrn].
    + apply (on_thread_reply_recruitment true w2 b); [done|].
      split; [by rewrite Hstored|]. exists n. by rewrite Hstored.
    + apply Hskip. right. exists r. rewrite Hstored. split; [done|].
      rewrite Hcat2. by intros [= ->].
Qed.

Lemma staff_reply_repeats_the_move_until_the_update_witness :
  requests (exec (on_thread_reply true)
              (exec (on_thread_reply true)
                    (ticket sample_db (Some 5) [message_of user_embed] None)))
  = [GetHistory; EditCategory 111; GetHistory; EditCategory 111].
Proof.
  apply (staff_reply_repeats_the_move_until_the_update
           (ticket sample_db (Some 5) [message_of user_embed] None) false 111).
  - reflexivity.
  - right. exists 900. split; [reflexivity|]. intros H. discriminate H.
  - reflexivity.
  - reflexivity.
  - vm_compute. reflexivity.
  - intros H. discriminate H.
  - reflexivity.
Defined.

(** X18. A fresh installation asks for no move.  Starting from an empty
    store, after [ensure_config_keys] has run, every reply whose scan
    returns ends normally with the history requested and no move, and the
    closing command run in a thread channel answers there that no closing
    category is configured. *)
Theorem fresh_installation_moves_nothing (w : world) :
  db w = ∅ →
  (∀ from_mod b,
     scan w = Return b →
     on_thread_reply from_mod (exec ensure_config_keys w)
     = (Return (), send GetHistory (exec ensure_config_keys w)))
  ∧ (∀ ctx,
       in_thread ctx = true →
       move_to_closing_category ctx (exec ensure_config_keys w)
       = (Return (told "The closing category ID is not configured." ctx),
          post_text (exec ensure_config_keys w)))
  ∧ (∀ ctx,
       in_thread ctx = true →
       requests (exec (move_to_closing_category ctx)
                      (exec ensure_config_keys w))
       = requests w).
Proof.
  intros Hempty. rewrite exec_ensure_config_keys.
  assert (∀ key, stored key (set_db ensure_db w) = PyNone) as Hnone.
  { intros key. unfold stored, set_db. cbn [db].
    by rewrite ensure_db_reads, Hempty, lookup_empty. }
  split; [|split].
  - intros from_mod b Hscan.
    rewrite (on_thread_reply_elsewhere from_mod _ b);
      [|done|left; by rewrite Hnone].
    apply move_if_set_unset. unfold selected. rewrite !Hnone.
    by destruct from_mod, b.
  - intros ctx Hthread. by rewrite closing_in_thread, Hnone.
  - intros ctx Hthread. unfold exec. by rewrite closing_in_thread, Hnone.
Qed.

Lemma fresh_installation_moves_nothing_witness :
  db (ticket ∅ (Some 5) [message_of staff_embed] None) = ∅
  ∧ on_thread_reply false
      (exec ensure_config_keys (ticket ∅ (Some 5) [message_of staff_embed] None))
    = (Return (),
       send GetHistory
         (exec ensure_config_keys
               (ticket ∅ (Some 5) [message_of staff_embed] None))).
Proof.
  split; [reflexivity|].
  apply (proj1 (fresh_installation_moves_nothing
                  (ticket ∅ (Some 5) [message_of staff_embed] None) eq_refl)
           false true).
  reflexivity.
Defined.

(** ** The store *)

(** X20. [ensure_config_keys] never overwrites a configured value: a key
    whose stored value is not [None] keeps it, and on a store where the
    four keys are configured the run changes nothing at all. *)
Theorem ensure_config_keys_keeps_configured_values (w : world) :
  (∀ k v, db w !! k = Some v → v ≠ PyNone →
          db (exec ensure_config_keys w) !! k = Some v)
  ∧ ((∀ kv, kv ∈ default_keys → stored kv.1 w ≠ PyNone) →
     exec ensure_config_keys w = w).
Proof.
  rewrite exec_ensure_config_keys. split.
  - intros k v Hk Hv. unfold set_db. cbn [db].
    rewrite ensure_db_lookup, Hk. by case_decide.
  - intros Hall.
    assert (ensure_db (db w) = db w) as Hdb.
    { apply map_eq. intros k. rewrite ensure_db_lookup.
      case_decide as Hk; [|done].
      apply list_elem_of_fmap in Hk as (kv & -> & Hkv).
      specialize (Hall kv Hkv). unfold stored in Hall.
      by destruct (db w !! kv.1). }
    unfold set_db. rewrite Hdb. by destruct w.
Qed.

Lemma ensure_config_keys_keeps_configured_values_witness :
  exec ensure_config_keys (ticket sample_db (Some 5) [] None)
  = ticket sample_db (Some 5) [] None.
Proof.
  apply (ensure_config_keys_keeps_configured_values
           (ticket sample_db (Some 5) [] None)).
  intros kv Hkv. unfold default_keys in Hkv.
  rewrite !elem_of_cons, elem_of_nil in Hkv.
  destruct Hkv as [->|[->|[->|[->|[]]]]]; intros H; discriminate H.
Defined.

(** X21. The closing command never reads the history and never writes
    the store or the cached channel's category.  Either it sends Discord
    nothing, and the thread's channel holds the messages it held, with the
    command's notice on top when no closing category is configured; or it
    sends one edit request, for the configured closing category, and the
    messages are as they were. *)
Theorem closing_command_frame (ctx : Context) (w : world) :
  db (exec (move_to_closing_category ctx) w) = db w
  ∧ discord.category_id (channel (exec (move_to_closing_category ctx) w))
    = discord.category_id (channel w)
  ∧ ((requests (exec (move_to_closing_category ctx) w) = requests w
      ∧ (discord.messages (channel (exec (move_to_closing_category ctx) w))
         = discord.messages (channel w)
         ∨ (in_thread ctx = true
            ∧ stored "closing_category_id" w = PyNone
            ∧ discord.messages (channel (exec (move_to_closing_category ctx) w))
              = text_message :: discord.messages (channel w))))
     ∨ ∃ n, in_thread ctx = true
            ∧ py_int (stored "closing_category_id" w) = Return n
            ∧ n ∈ channels w
            ∧ requests (exec (move_to_closing_category ctx) w)
              = requests w ++ [EditCategory n]
            ∧ discord.messages (channel (exec (move_to_closing_category ctx) w))
              = discord.messages (channel w)).
Proof.
  unfold exec. destruct (in_thread ctx) eqn:Hthread.
  2:{ unfold move_to_closing_category. rewrite Hthread. run_command.
      rewrite Hthread. cbn.
      split; [done|]. split; [done|]. left. split; [done|]. by left. }
  rewrite closing_in_thread by done.
  destruct (py_is_none (stored "closing_category_id" w)) eqn:Hnone.
  { assert (stored "closing_category_id" w = PyNone) as Hst.
    { by destruct (stored "closing_category_id" w). }
    cbn. split; [done|]. split; [done|]. left. split; [done|]. by right. }
  pose proof (move_channel_frame (stored "closing_category_id" w) w)
    as (Hdb & _ & _ & _).
  pose proof (move_channel_channel (stored "closing_category_id" w) w) as Hch.
  pose proof (move_channel_requests_exactly (stored "closing_category_id" w) w)
    as Hreq.
  unfold exec in *.
  destruct (move_channel (stored "closing_category_id" w) w) as [[[]|e] w'];
    cbn [snd] in *.
  all: split; [done|]; split; [by rewrite Hch|].
  all: destruct Hreq as [Hsame|(n & Hint & Hin & _ & Hone)];
    [left; split; [done|left; by rewrite Hch]
    |right; exists n; by rewrite Hch].
Qed.
